(** * Jerry: the command dispatcher, the conversation history and the
      platform inventory of the voice assistant

    A shallow embedding of [Jerry/main.py], [Jerry/platform_utils.py] and
    [Jerry/features/*.py].  Python [str] values are modelled as [string],
    one [ascii] per code point (the code points below 256); effects are
    threaded through a state-and-exception monad whose state carries the
    assistant object and the trace of calls that leave the program.
    What the program reads from outside (the clock, the file system, the
    output of the voice-listing commands, the replies of the web
    providers) is a field of [World].  The libraries the program calls
    ([pyttsx3], [webbrowser], [pywhatkit], [os.system]) are taken to
    return; the exceptions modelled are the ones the program's own code
    decides.  Calls of [logging] write to a log file only and are not
    traced. *)

From Stdlib Require Import String Ascii List ZArith Bool Lia.
From Stdlib Require Import DecimalString QArith.
From stdpp Require Import base option gmap strings list fin_maps.

Local Open Scope string_scope.
Local Open Scope list_scope.

(* ===================================================================== *)
(** ** Python string primitives *)
(* ===================================================================== *)

Module PyStr.

(** Code points below 256 that [str.lower] changes: A-Z and the Latin-1
    capitals U+00C0..U+00DE without the multiplication sign U+00D7. *)
Definition is_upper (c : ascii) : bool :=
  let n := nat_of_ascii c in
  (((65 <=? n) && (n <=? 90))
   || ((192 <=? n) && (n <=? 222) && negb (n =? 215)))%nat.

Definition lower_char (c : ascii) : ascii :=
  if is_upper c then ascii_of_nat (nat_of_ascii c + 32) else c.

(** [s.lower()] *)
Fixpoint lower (s : string) : string :=
  match s with
  | EmptyString => EmptyString
  | String c s' => String (lower_char c) (lower s')
  end.

(** [c.isspace()] on the code points below 256. *)
Definition is_space (c : ascii) : bool :=
  let n := nat_of_ascii c in
  (((9 <=? n) && (n <=? 13)) || ((28 <=? n) && (n <=? 32))
   || (n =? 133) || (n =? 160))%nat.

Fixpoint lstrip (s : string) : string :=
  match s with
  | EmptyString => EmptyString
  | String c s' => if is_space c then lstrip s' else s
  end.

Fixpoint rstrip (s : string) : string :=
  match s with
  | EmptyString => EmptyString
  | String c s' =>
      match rstrip s' with
      | EmptyString => if is_space c then EmptyString else String c EmptyString
      | r => String c r
      end
  end.

(** [s.strip()] *)
Definition strip (s : string) : string := rstrip (lstrip s).

(** [needle in hay] *)
Fixpoint str_in (needle hay : string) : bool :=
  if String.prefix needle hay then true
  else match hay with
       | EmptyString => false
       | String _ hay' => str_in needle hay'
       end.

(** [c in s] for a single character, as in [any(c in chars for c in s)]. *)
Fixpoint char_in (c : ascii) (s : string) : bool :=
  match s with
  | EmptyString => false
  | String d s' => Ascii.eqb c d || char_in c s'
  end.

Fixpoint any_char (p : ascii -> bool) (s : string) : bool :=
  match s with
  | EmptyString => false
  | String c s' => p c || any_char p s'
  end.

(** [s.replace(old, new)] for a non-empty [old]: leftmost, non-overlapping
    occurrences.  [skip] counts the characters of a matched occurrence
    that are still to be dropped. *)
Fixpoint replace_go (old new : string) (skip : nat) (s : string) : string :=
  match s with
  | EmptyString => EmptyString
  | String c s' =>
      match skip with
      | S k => replace_go old new k s'
      | O =>
          if String.prefix old s
          then String.append new (replace_go old new (String.length old - 1) s')
          else String c (replace_go old new 0 s')
      end
  end.

(** [s.replace("", new)] puts [new] before every character and at the end. *)
Fixpoint interleave (new s : string) : string :=
  match s with
  | EmptyString => new
  | String c s' => String.append new (String c (interleave new s'))
  end.

Definition replace (old new s : string) : string :=
  match old with
  | EmptyString => interleave new s
  | _ => replace_go old new 0 s
  end.

(** [s.split(sep)] for a one-character separator. *)
Fixpoint split_on (sep : ascii) (s : string) : list string :=
  match s with
  | EmptyString => [EmptyString]
  | String c s' =>
      if Ascii.eqb c sep then EmptyString :: split_on sep s'
      else match split_on sep s' with
           | h :: t => String c h :: t
           | [] => [String c EmptyString]
           end
  end.

(** [s.split()]: the maximal runs of non-space characters.  The helper
    returns the run that starts at the head of [s] (empty when [s] starts
    with a space) and the runs after it. *)
Fixpoint split_ws_go (s : string) : string * list string :=
  match s with
  | EmptyString => (EmptyString, [])
  | String c s' =>
      let '(tok, rest) := split_ws_go s' in
      if is_space c
      then (EmptyString, match tok with EmptyString => rest | _ => tok :: rest end)
      else (String c tok, rest)
  end.

Definition split_ws (s : string) : list string :=
  let '(tok, rest) := split_ws_go s in
  match tok with EmptyString => rest | _ => tok :: rest end.

(** [bool(s)] *)
Definition truthy (s : string) : bool :=
  match s with EmptyString => false | _ => true end.

(** [str(n)] for a non-negative integer. *)
Definition of_nat (n : nat) : string := NilEmpty.string_of_uint (Nat.to_uint n).

(** [str(z)] for an integer. *)
Definition of_Z (z : Z) : string := NilEmpty.string_of_int (Z.to_int z).

(** Index of the last occurrence of [c] in [s], as [s.rfind(c)]. *)
Fixpoint rfind_go (c : ascii) (s : string) (i : nat) (found : option nat) : option nat :=
  match s with
  | EmptyString => found
  | String d s' => rfind_go c s' (S i) (if Ascii.eqb c d then Some i else found)
  end.

Definition rfind (c : ascii) (s : string) : option nat := rfind_go c s 0 None.

Fixpoint take (n : nat) (s : string) : string :=
  match n, s with
  | S k, String c s' => String c (take k s')
  | _, _ => EmptyString
  end.

Definition backslash : string := String (ascii_of_nat 92) EmptyString.
Definition newline : ascii := ascii_of_nat 10.

(** [sep.join(l)] *)
Fixpoint join (sep : string) (l : list string) : string :=
  match l with
  | [] => EmptyString
  | [x] => x
  | x :: l' => String.append x (String.append sep (join sep l'))
  end.

(** [c * n] for a one-character string. *)
Fixpoint repeat_char (c : ascii) (n : nat) : string :=
  match n with
  | O => EmptyString
  | S k => String c (repeat_char c k)
  end.

(** [s[n:]] for [0 <= n]. *)
Fixpoint skip (n : nat) (s : string) : string :=
  match n, s with
  | S k, String _ s' => skip k s'
  | _, _ => s
  end.

Definition endswith (s suffix : string) : bool :=
  let n := String.length s in
  let k := String.length suffix in
  (k <=? n)%nat && String.eqb (String.substring (n - k) k s) suffix.

End PyStr.

(* ===================================================================== *)
(** ** Exceptions, the trace of outside calls, and the monad *)
(* ===================================================================== *)

Inductive exn : Type :=
  | TypeError (msg : string)
  | NameError (name : string)
  | KeyError (key : string)
  | IndexError (msg : string)
  | OSError (msg : string).

(** Calls that leave the program. *)
Inductive event : Type :=
  | Speak (text : string)             (* engine.say(text); engine.runAndWait() *)
  | WebOpen (url : string)            (* webbrowser.open(url) *)
  | PlayOnYt (query : string)         (* pywhatkit.playonyt(query) *)
  | OsSystem (cmd : string)           (* os.system(cmd) *)
  | OsStartfile (path : string)       (* os.startfile(path) *)
  | SubprocessCall (argv : list string)
  | HttpGet (url : string)            (* requests.get(url) *)
  | WikiSummary (query : string)      (* wikipedia.summary(query, ...) *)
  | ScreenshotSave (path : string)    (* pyautogui.screenshot().save(path) *)
  | Sentiment (text : string)         (* the sentiment pipeline *)
  | Print (text : string).

Inductive result (A : Type) : Type :=
  | Ret (a : A)
  | Raise (e : exn).
Arguments Ret {A} a.
Arguments Raise {A} e.

Section Monad.
Context {St : Type}.

Definition M (A : Type) : Type := St -> result A * St.

Definition ret {A} (a : A) : M A := fun s => (Ret a, s).
Definition raise {A} (e : exn) : M A := fun s => (Raise e, s).

Definition bind {A B} (m : M A) (k : A -> M B) : M B :=
  fun s => match m s with
           | (Ret a, s') => k a s'
           | (Raise e, s') => (Raise e, s')
           end.

Definition get : M St := fun s => (Ret s, s).
Definition modify (f : St -> St) : M unit := fun s => (Ret tt, f s).

(** [for x in l: body x] *)
Fixpoint for_each {A} (l : list A) (body : A -> M unit) : M unit :=
  match l with
  | [] => ret tt
  | x :: l' => bind (body x) (fun _ => for_each l' body)
  end.

End Monad.
Arguments M St A : clear implicits.

Notation "'let*' x ':=' m 'in' k" := (bind m (fun x => k))
  (at level 10, x name, m at level 100, k at level 200).
Notation "m '>>' k" := (bind m (fun _ => k))
  (at level 90, right associativity).

(* ===================================================================== *)
(** ** Python values and the binding of call arguments *)
(* ===================================================================== *)

Inductive pyval : Type :=
  | VNone
  | VBool (b : bool)
  | VInt (z : Z)
  | VStr (s : string)
  | VObj (cls : string).   (* any other object, truthy *)

(** [bool(v)] *)
Definition py_truthy (v : pyval) : bool :=
  match v with
  | VNone => false
  | VBool b => b
  | VInt z => negb (z =? 0)%Z
  | VStr s => PyStr.truthy s
  | VObj _ => true
  end.

(** [isinstance(v, str)] *)
Definition is_str (v : pyval) : bool :=
  match v with VStr _ => true | _ => false end.

(** A formal parameter: its name and its default, if it has one. *)
Definition param : Type := string * option pyval.
Definition bindings : Type := list (string * pyval).

Fixpoint assoc {A} (k : string) (l : list (string * A)) : option A :=
  match l with
  | [] => None
  | (k', v) :: l' => if String.eqb k k' then Some v else assoc k l'
  end.

(** Positional arguments fill the parameters from the left. *)
Fixpoint bind_positional (fname : string) (params : list param) (pos : list pyval)
  : result (bindings * list param) :=
  match pos, params with
  | [], _ => Ret ([], params)
  | v :: pos', (n, _) :: params' =>
      match bind_positional fname params' pos' with
      | Ret (b, rest) => Ret ((n, v) :: b, rest)
      | Raise e => Raise e
      end
  | _ :: _, [] =>
      Raise (TypeError (String.append fname "() takes fewer positional arguments than were given"))
  end.

(** Every keyword must name a parameter that no positional argument took. *)
Fixpoint check_keywords (fname : string) (bound : bindings) (rest : list param)
  (kw : bindings) : result unit :=
  match kw with
  | [] => Ret tt
  | (k, _) :: kw' =>
      match assoc k bound, assoc k rest with
      | Some _, _ =>
          Raise (TypeError (String.append fname
                   (String.append "() got multiple values for argument '" (String.append k "'"))))
      | None, None =>
          Raise (TypeError (String.append fname
                   (String.append "() got an unexpected keyword argument '" (String.append k "'"))))
      | None, Some _ => check_keywords fname bound rest kw'
      end
  end.

(** The parameters left over take their keyword, else their default; one
    with neither is missing. *)
Fixpoint fill_rest (fname : string) (rest : list param) (kw : bindings) : result bindings :=
  match rest with
  | [] => Ret []
  | (n, d) :: rest' =>
      match (match assoc n kw with Some v => Some v | None => d end) with
      | None =>
          Raise (TypeError (String.append fname
                   (String.append "() missing 1 required positional argument: '"
                      (String.append n "'"))))
      | Some v =>
          match fill_rest fname rest' kw with
          | Ret b => Ret ((n, v) :: b)
          | Raise e => Raise e
          end
      end
  end.

Definition bind_call (fname : string) (params : list param)
  (pos : list pyval) (kw : bindings) : result bindings :=
  match bind_positional fname params pos with
  | Raise e => Raise e
  | Ret (b, rest) =>
      match check_keywords fname b rest kw with
      | Raise e => Raise e
      | Ret _ =>
          match fill_rest fname rest kw with
          | Raise e => Raise e
          | Ret b' => Ret (b ++ b')
          end
      end
  end.

(** How an attribute looked up on an instance turns into a callable: a
    plain function gets the instance as its first positional argument, a
    [@staticmethod] gets nothing. *)
Inductive method_kind : Type := InstanceMethod | StaticMethod.

Definition call_method (kind : method_kind) (fname : string) (params : list param)
  (receiver : pyval) (pos : list pyval) (kw : bindings) : result bindings :=
  bind_call fname params
    (match kind with InstanceMethod => receiver :: pos | StaticMethod => pos end) kw.

(** The value of a bound parameter; every parameter of a successful
    binding has one. *)
Definition arg (b : bindings) (n : string) : pyval :=
  match assoc n b with Some v => v | None => VNone end.

(* ===================================================================== *)
(** ** The world outside the program and the state of a session *)
(* ===================================================================== *)

(** A directory tree.  The order of [entries] is the order in which the
    operating system lists them. *)
#[warnings="-register-all"]
Inductive node : Type :=
  | File (name : string) (x_ok : bool)
  | Dir (name : string) (readable : bool) (entries : list node).

Definition node_name (n : node) : string :=
  match n with File name _ => name | Dir name _ _ => name end.

Definition is_dir (n : node) : bool :=
  match n with Dir _ _ _ => true | File _ _ => false end.

Definition is_file (n : node) : bool := negb (is_dir n).

(** What the weather request does: one of the exceptions the manager
    names, or a response with its status code and, when the body decodes,
    the temperature and the description in it. *)
Inductive weather_reply : Type :=
  | WeatherConnectionError
  | WeatherTimeout
  | WeatherOtherError
  | WeatherResponse (status : Z) (body : option (string * string)).

Inductive news_reply : Type :=
  | NewsRaised (msg : string)
  | NewsResponse (status : Z) (titles : list string).

Inductive location_reply : Type :=
  | LocationRaised (msg : string)
  | LocationData (city country region : option string).

Record World : Type := {
  platform_system : string;                (* platform.system() *)
  path_home : string;                      (* str(Path.home()) *)
  datetime_now : nat -> string;            (* isoformat of the i-th datetime.now() *)
  time_time : nat -> Q;                    (* the i-th time.time(), in seconds *)
  fs_root : string -> option node;         (* the tree at a search location *)
  winreg_voice_tokens : option (list string); (* None: OpenKey raises OSError *)
  say_stdout : option string;              (* None: subprocess.run raises *)
  espeak_stdout : option string;
  weather_http : string -> weather_reply;
  news_http : string -> news_reply;
  location_http : location_reply;
  wikipedia_summary : string -> string + string;  (* summary, or str(e) *)
  screenshot_saved : string + string;             (* saved path, or str(e) *)
  pipeline_loads : bool;
  sentiment_label : string -> option string;      (* None: the pipeline raises *)
  random_choice : nat -> nat;              (* the index drawn by the i-th random.choice *)
  microphone_ok : bool;                    (* speech.verify_microphone() *)
  now_hour : Z;                            (* datetime.datetime.now().hour *)
  now_strftime : string                    (* time.strftime("%I:%M %p") *)
}.

(** One entry of [conversation_history]. *)
Record Turn : Type := {
  text : string;
  speaker : string;
  timestamp : string
}.

(** [self.sentiment_analyzer]: [None], the fallback lambda, or the pipeline. *)
Inductive analyzer : Type := NotLoaded | Fallback | Pipeline.

(** The attributes of the assistant that some method assigns after
    [__init__], the counters of the readings taken from the world, and
    the trace. *)
Record State : Type := {
  conversation_history : list Turn;
  app_cache : gmap string string;          (* self.platform_utils.app_cache *)
  sentiment_analyzer : analyzer;
  clock_reads : nat;
  time_reads : nat;
  random_draws : nat;
  trace : list event
}.

(** The attributes [__init__] fixes for the session. *)
Record Self : Type := {
  missing_deps : list string;
  optional_missing : list string;
  config_name : string;
  weather_api_key : option string;         (* os.getenv("WEATHER_API_KEY") *)
  news_api_key : option string
}.

(** [self.max_history_length = 10] *)
Definition max_history_length : nat := 10.

Definition set_history (h : list Turn) (s : State) : State :=
  {| conversation_history := h; app_cache := app_cache s;
     sentiment_analyzer := sentiment_analyzer s; clock_reads := clock_reads s;
     time_reads := time_reads s; random_draws := random_draws s; trace := trace s |}.

Definition set_app_cache (c : gmap string string) (s : State) : State :=
  {| conversation_history := conversation_history s; app_cache := c;
     sentiment_analyzer := sentiment_analyzer s; clock_reads := clock_reads s;
     time_reads := time_reads s; random_draws := random_draws s; trace := trace s |}.

Definition set_analyzer (a : analyzer) (s : State) : State :=
  {| conversation_history := conversation_history s; app_cache := app_cache s;
     sentiment_analyzer := a; clock_reads := clock_reads s;
     time_reads := time_reads s; random_draws := random_draws s; trace := trace s |}.

Definition set_clock_reads (n : nat) (s : State) : State :=
  {| conversation_history := conversation_history s; app_cache := app_cache s;
     sentiment_analyzer := sentiment_analyzer s; clock_reads := n;
     time_reads := time_reads s; random_draws := random_draws s; trace := trace s |}.

Definition set_time_reads (n : nat) (s : State) : State :=
  {| conversation_history := conversation_history s; app_cache := app_cache s;
     sentiment_analyzer := sentiment_analyzer s; clock_reads := clock_reads s;
     time_reads := n; random_draws := random_draws s; trace := trace s |}.

Definition set_random_draws (n : nat) (s : State) : State :=
  {| conversation_history := conversation_history s; app_cache := app_cache s;
     sentiment_analyzer := sentiment_analyzer s; clock_reads := clock_reads s;
     time_reads := time_reads s; random_draws := n; trace := trace s |}.

Definition set_trace (t : list event) (s : State) : State :=
  {| conversation_history := conversation_history s; app_cache := app_cache s;
     sentiment_analyzer := sentiment_analyzer s; clock_reads := clock_reads s;
     time_reads := time_reads s; random_draws := random_draws s; trace := t |}.

(** Record one outside call at the end of the trace. *)
Definition emit (e : event) : M State unit :=
  modify (fun s => set_trace (trace s ++ [e]) s).

Definition lift_result {A} (r : result A) : M State A :=
  match r with Ret a => ret a | Raise e => raise e end.

(** [name in l] for a list of strings. *)
Definition str_mem (name : string) (l : list string) : bool :=
  existsb (String.eqb name) l.

(** [l[i]] *)
Definition index {A} (l : list A) (i : nat) : result A :=
  match nth_error l i with
  | Some x => Ret x
  | None => Raise (IndexError "list index out of range")
  end.

(** A comprehension whose element expression can raise. *)
Fixpoint map_result {A B} (f : A -> result B) (l : list A) : result (list B) :=
  match l with
  | [] => Ret []
  | x :: l' =>
      match f x with
      | Raise e => Raise e
      | Ret y => match map_result f l' with
                 | Raise e => Raise e
                 | Ret ys => Ret (y :: ys)
                 end
      end
  end.

(* ===================================================================== *)
(** ** features/system_manager.py *)
(* ===================================================================== *)

Module SystemManager.

(** [os.system(cmd)] *)
Definition os_system (cmd : string) : M State unit := emit (OsSystem cmd).

(** <<
    @staticmethod
    def shutdown(self, confirm=False, require_phrase=True):
    >> *)
Definition shutdown_kind : method_kind := StaticMethod.
Definition shutdown_params : list param :=
  [("self", None); ("confirm", Some (VBool false)); ("require_phrase", Some (VBool true))].

Definition shutdown_body (w : World) (b : bindings) : M State string :=
  if py_truthy (arg b "require_phrase") && negb (py_truthy (arg b "confirm"))
  then ret "Please confirm by saying 'confirm shutdown'"
  else if String.eqb (platform_system w) "Windows"
  then os_system "shutdown /s /t 60" >>
       ret "Shutting down in 60 seconds. To cancel, say 'cancel shutdown'"
  else os_system "sudo shutdown -h +1" >>
       ret "Shutting down in 60 seconds. To cancel, use 'sudo shutdown -c'".

(** A call of [shutdown] on an instance, with its positional and keyword
    arguments. *)
Definition shutdown (w : World) (receiver : pyval) (pos : list pyval) (kw : bindings)
  : M State string :=
  let* b := lift_result (call_method shutdown_kind "shutdown" shutdown_params receiver pos kw) in
  shutdown_body w b.

(** The four methods below are [@staticmethod]s without a [self]
    parameter and are called with as many arguments as they declare. *)
Definition cancel_shutdown (w : World) : M State string :=
  (if String.eqb (platform_system w) "Windows"
   then os_system "shutdown /a"
   else os_system "sudo shutdown -c") >>
  ret "Shutdown canceled".

Definition restart (w : World) : M State unit :=
  if String.eqb (platform_system w) "Windows"
  then os_system "shutdown /r /t 5"
  else os_system "sudo shutdown -r now".

Definition sleep (w : World) : M State unit :=
  if String.eqb (platform_system w) "Windows"
  then os_system "rundll32.exe powrprof.dll,SetSuspendState 0,1,0"
  else os_system "pmset sleepnow".

Definition open_app (w : World) (app_path : string) : M State unit :=
  let system := platform_system w in
  if String.eqb system "Windows" then emit (OsStartfile app_path)
  else if String.eqb system "Darwin" then emit (SubprocessCall ["open"; app_path])
  else if String.eqb system "Linux" then emit (SubprocessCall ["xdg-open"; app_path])
  else emit (Print (String.append "Unsupported platform: " system)).

End SystemManager.

(* ===================================================================== *)
(** ** features/browser_manager.py and the other feature managers *)
(* ===================================================================== *)

Module BrowserManager.

Definition open_url (url : string) : M State unit := emit (WebOpen url).

Definition search_youtube (query : string) : M State unit := emit (PlayOnYt query).

Definition search_google (query : string) : M State unit :=
  emit (WebOpen (String.append "https://www.google.com/search?q=" query)).

End BrowserManager.

Module WeatherManager.

Definition get_weather (w : World) (api_key : option string) (city : string)
  : M State string :=
  match api_key with
  | None | Some EmptyString =>
      ret "Weather functionality is not available (missing API key)"
  | Some key =>
      let url := String.append "http://api.openweathermap.org/data/2.5/weather?q="
                   (String.append city (String.append "&appid="
                      (String.append key "&units=metric"))) in
      emit (HttpGet url) >>
      match weather_http w url with
      | WeatherConnectionError =>
          ret "Couldn't connect to weather service. Check your internet connection."
      | WeatherTimeout =>
          ret "Weather service request timed out. Please try again later."
      | WeatherOtherError => ret "Sorry, I couldn't fetch the weather information"
      | WeatherResponse status body =>
          if (status =? 401)%Z then ret "Weather API key is invalid"
          else if (status =? 404)%Z
          then ret (String.append "City '" (String.append city "' not found"))
          else if negb (status =? 200)%Z
          then ret (String.append "Weather service unavailable (Error "
                      (String.append (PyStr.of_Z status) ")"))
          else match body with
               | None => ret "Sorry, I couldn't fetch the weather information"
               | Some (temp, desc) =>
                   ret (String.append "The temperature in "
                          (String.append city (String.append " is "
                             (String.append temp
                                (String (ascii_of_nat 176) (String.append "C with " desc))))))
               end
      end
  end.

End WeatherManager.

Module NewsManager.

Definition get_news (w : World) (api_key : option string) : M State (list string) :=
  let url := String.append "https://newsapi.org/v2/top-headlines?sources=techcrunch&apiKey="
               (match api_key with Some k => k | None => "None" end) in
  emit (HttpGet url) >>
  match news_http w url with
  | NewsRaised msg => ret [String.append "Error getting news: " msg]
  | NewsResponse status titles =>
      if (status =? 200)%Z then ret (firstn 5 titles)
      else ret ["Sorry, I couldn't fetch the news"]
  end.

End NewsManager.

Module LocationManager.

(** The dict [get_location] returns, as its items.  The two requests of
    the lookup are traced as one. *)
Definition get_location (w : World) : M State (list (string * string)) :=
  emit (HttpGet "https://api.ipify.org") >>
  match location_http w with
  | LocationRaised msg => ret [("error", msg)]
  | LocationData city country region =>
      ret [("city", default "Unknown" city);
           ("country", default "Unknown" country);
           ("region", default "Unknown" region)]
  end.

End LocationManager.

Module WikiManager.

Definition search (w : World) (query : string) : M State string :=
  emit (WikiSummary query) >>
  match wikipedia_summary w query with
  | inl summary => ret summary
  | inr msg => ret (String.append "Error searching Wikipedia: " msg)
  end.

End WikiManager.

Module ScreenshotManager.

Definition take_screenshot (w : World) : M State string :=
  match screenshot_saved w with
  | inl path => emit (ScreenshotSave path) >> ret path
  | inr msg => ret (String.append "Error taking screenshot: " msg)
  end.

End ScreenshotManager.

(* ===================================================================== *)
(** ** platform_utils.py *)
(* ===================================================================== *)

Module PlatformUtils.

Definition is_windows (w : World) : bool := String.eqb (platform_system w) "Windows".
Definition is_mac (w : World) : bool := String.eqb (platform_system w) "Darwin".
Definition is_linux (w : World) : bool := String.eqb (platform_system w) "Linux".

(** The names the module binds at its top level: its [import] lines
    ([os], [platform], [subprocess], [logging], [winreg], [Path] and the
    three names from [typing]) and the class itself. *)
Definition module_globals : list string :=
  ["os"; "platform"; "subprocess"; "logging"; "winreg"; "Path";
   "Dict"; "Optional"; "List"; "PlatformUtils"].

(** Looking a global name up when a function body runs. *)
Definition load_global (globals : list string) (name : string) : M State unit :=
  if str_mem name globals then ret tt else raise (NameError name).

(** *** Voices *)

Definition windows_token_prefix : string :=
  String.append "HKEY_LOCAL_MACHINE\SOFTWARE\Microsoft\Speech\Voices\Tokens" PyStr.backslash.

Definition _get_windows_voices (w : World) : list string :=
  if negb (is_windows w) then [EmptyString]
  else
    let voices :=
      match winreg_voice_tokens w with
      | None => []
      | Some keys => map (String.append windows_token_prefix) keys
      end in
    match voices with
    | [] => [String.append windows_token_prefix "TTS_MS_EN-US_ZIRA_11.0"]
    | _ => voices
    end.

Definition _get_mac_voices (w : World) : list string :=
  match say_stdout w with
  | None => ["com.apple.speech.synthesis.voice.samantha"]
  | Some stdout =>
      match map_result (fun line => index (PyStr.split_ws line) 0)
              (filter (fun line => PyStr.truthy line = true) (PyStr.split_on PyStr.newline stdout)) with
      | Raise _ => ["com.apple.speech.synthesis.voice.samantha"]
      | Ret voices =>
          map (fun voice => String.append "com.apple.speech.synthesis.voice." (PyStr.lower voice))
            voices
      end
  end.

Definition _get_linux_voices (w : World) : list string :=
  match espeak_stdout w with
  | None => ["default"]
  | Some stdout =>
      match map_result (fun line => index (PyStr.split_ws line) 2)
              (filter (fun line => PyStr.truthy line = true)
                 (tail (PyStr.split_on PyStr.newline stdout))) with
      | Raise _ => ["default"]
      | Ret voices => voices
      end
  end.

Definition get_default_voice (w : World) : string :=
  match (if is_windows w then index (_get_windows_voices w) 0
         else if is_mac w then index (_get_mac_voices w) 0
         else index (_get_linux_voices w) 0) with
  | Ret voice => voice
  | Raise _ => EmptyString
  end.

(** *** Paths *)

Definition sep (w : World) : string := if is_windows w then PyStr.backslash else "/".

(** [str(Path(p))] for a path written with forward slashes. *)
Definition path_str (w : World) (p : string) : string :=
  if is_windows w then PyStr.replace "/" PyStr.backslash p else p.

(** [str(Path(dir) / name)] *)
Definition joinpath (w : World) (dir name : string) : string :=
  String.append dir (String.append (sep w) name).

Definition home_path (w : World) (rel : string) : string :=
  path_str w (String.append (path_home w) (String.append "/" rel)).

Definition COMMON_APP_LOCATIONS (w : World) : list (string * list string) :=
  [("Windows", ["C:/Program Files"; "C:/Program Files (x86)";
                home_path w "AppData/Local"; home_path w "AppData/Local/Programs";
                "C:/Windows/System32"]);
   ("Darwin", ["/Applications"; home_path w "Applications"; "/System/Applications"]);
   ("Linux", ["/usr/bin"; "/usr/local/bin"; "/opt"; home_path w ".local/bin"])].

(** [Path(name).stem]: the name without its last suffix; a dot at the
    start or at the end of the name starts no suffix. *)
Definition stem (name : string) : string :=
  match PyStr.rfind "." name with
  | Some i => if ((0 <? i) && (i <? String.length name - 1))%nat
              then PyStr.take i name else name
  | None => name
  end.

(** *** Scanning *)

(** [if app_name not in paths: paths[app_name] = path] *)
Definition add_if_absent (app_name path : string) (paths : gmap string string)
  : gmap string string :=
  match paths !! app_name with
  | Some _ => paths
  | None => <[app_name := path]> paths
  end.

(** [directory.iterdir()]: [None] when it raises (no such directory, not
    a directory, permission denied). *)
Definition iterdir (directory : option node) : option (list node) :=
  match directory with
  | Some (Dir _ true entries) => Some entries
  | _ => None
  end.

(** [directory.rglob(pattern)]: the entries below [n], at any depth, whose
    name matches; a directory that cannot be read yields nothing. *)
Fixpoint rglob (w : World) (matches : string -> bool) (dirpath : string) (n : node)
  : list (string * node) :=
  match n with
  | Dir _ true entries =>
      map (fun e => (joinpath w dirpath (node_name e), e))
        (filter (fun e => matches (node_name e) = true) entries)
      ++ (fix below (es : list node) : list (string * node) :=
            match es with
            | [] => []
            | e :: es' => rglob w matches (joinpath w dirpath (node_name e)) e ++ below es'
            end) entries
  | _ => []
  end.

Definition rglob_from (w : World) (matches : string -> bool) (dirpath : string)
  (directory : option node) : list (string * node) :=
  match directory with Some n => rglob w matches dirpath n | None => [] end.

Definition _scan_windows_directory (w : World) (dirpath : string) (directory : option node)
  (paths : gmap string string) : gmap string string :=
  fold_left
    (fun paths '(path, e) =>
       if negb (is_file e) then paths
       else add_if_absent (PyStr.lower (stem (node_name e))) path paths)
    (rglob_from w (fun name => PyStr.endswith (PyStr.lower name) ".exe") dirpath directory)
    paths.

Definition _scan_mac_directory (w : World) (dirpath : string) (directory : option node)
  (paths : gmap string string) : gmap string string :=
  fold_left
    (fun paths '(path, e) =>
       if negb (is_dir e) then paths
       else add_if_absent (PyStr.lower (stem (node_name e))) path paths)
    (rglob_from w (fun name => PyStr.endswith name ".app") dirpath directory)
    paths.

Definition _scan_linux_directory (w : World) (dirpath : string) (directory : option node)
  (paths : gmap string string) : gmap string string :=
  match iterdir directory with
  | None => paths
  | Some entries =>
      fold_left
        (fun paths e =>
           match e with
           | File name true =>
               add_if_absent (PyStr.lower (stem name)) (joinpath w dirpath name) paths
           | _ => paths
           end)
        entries paths
  end.

Definition scan_platform_directory (w : World) (dirpath : string) (directory : option node)
  (paths : gmap string string) : gmap string string :=
  if is_windows w then _scan_windows_directory w dirpath directory paths
  else if is_mac w then _scan_mac_directory w dirpath directory paths
  else _scan_linux_directory w dirpath directory paths.

(** [_scan_directory] on a directory that exists. *)
Fixpoint scan_node (w : World) (dirpath : string) (n : node)
  (paths : gmap string string) (depth max_depth : Z) {struct n} : gmap string string :=
  if (depth >? max_depth)%Z then paths
  else
    let paths := scan_platform_directory w dirpath (Some n) paths in
    if (depth <? max_depth)%Z then
      match n with
      | Dir _ true entries =>
          (fix subdirs (es : list node) (paths : gmap string string) : gmap string string :=
             match es with
             | [] => paths
             | e :: es' =>
                 subdirs es'
                   (if is_dir e
                    then scan_node w (joinpath w dirpath (node_name e)) e paths
                           (depth + 1)%Z max_depth
                    else paths)
             end) entries paths
      | _ => paths
      end
    else paths.

Definition _scan_directory (w : World) (dirpath : string) (directory : option node)
  (paths : gmap string string) (depth max_depth : Z) : gmap string string :=
  match directory with
  | Some n => scan_node w dirpath n paths depth max_depth
  | None => paths
  end.

(** [time.time()] *)
Definition read_time (w : World) : M State Q :=
  fun s => (Ret (time_time w (time_reads s)), set_time_reads (S (time_reads s)) s).

(** The [for location in search_locations] loop, with its [break]. *)
Fixpoint scan_locations (globals : list string) (w : World) (max_depth : Z) (timeout start_time : Q)
  (search_locations : list string) (paths : gmap string string)
  : M State (gmap string string) :=
  match search_locations with
  | [] => ret paths
  | location :: rest =>
      load_global globals "time" >>
      let* now := read_time w in
      if negb (Qle_bool (now - start_time) timeout) then ret paths
      else scan_locations globals w max_depth timeout start_time rest
             (_scan_directory w (path_str w location) (fs_root w location) paths 0 max_depth)
  end.

(** [scan_for_applications], run in a module whose top level binds [globals]. *)
Definition scan_for_applications_in (globals : list string) (w : World)
  (max_depth : Z) (timeout : Q) : M State (gmap string string) :=
  let search_locations := default [] (assoc (platform_system w) (COMMON_APP_LOCATIONS w)) in
  load_global globals "time" >>
  let* start_time := read_time w in
  let* paths := scan_locations globals w max_depth timeout start_time search_locations ∅ in
  modify (set_app_cache paths) >>
  ret paths.

(** [scan_for_applications] as [platform_utils.py] defines it. *)
Definition scan_for_applications (w : World) (max_depth : Z) (timeout : Q)
  : M State (gmap string string) :=
  scan_for_applications_in module_globals w max_depth timeout.

Definition find_application (w : World) (app_name : string) : M State (option string) :=
  let app_name := PyStr.lower app_name in
  let* s := get in
  match app_cache s !! app_name with
  | Some path => ret (Some path)
  | None =>
      scan_for_applications w 3 60 >>
      let* s' := get in
      ret (app_cache s' !! app_name)
  end.

(** [get_installed_apps]: the keys of the cache, after a scan when the
    cache is empty.  The list is given in the order of the map, not in
    the order of insertion. *)
Definition get_installed_apps (w : World) : M State (list string) :=
  let* s := get in
  (if decide (app_cache s = ∅) then scan_for_applications w 3 60 >> ret tt else ret tt) >>
  let* s' := get in
  ret (map fst (map_to_list (app_cache s'))).

End PlatformUtils.

(* ===================================================================== *)
(** ** main.py: the assistant *)
(* ===================================================================== *)

Module VirtualAssistant.

(** [hasattr(self, name)] after [__init__]: [browser], [system],
    [location] and [platform_utils] are always assigned, the other
    managers only when their dependency is not missing. *)
Definition hasattr (self : Self) (name : string) : bool :=
  if str_mem name ["browser"; "system"; "location"; "platform_utils"] then true
  else if str_mem name ["weather"; "news"] then negb (str_mem "pywhatkit" (missing_deps self))
  else if String.eqb name "screenshot" then negb (str_mem "pyautogui" (missing_deps self))
  else if String.eqb name "social" then negb (str_mem "instaloader" (missing_deps self))
  else if String.eqb name "wiki" then negb (str_mem "wikipedia" (missing_deps self))
  else false.

(** [self.NLP_AVAILABLE = "transformers" not in self.optional_missing] *)
Definition NLP_AVAILABLE (self : Self) : bool :=
  negb (str_mem "transformers" (optional_missing self)).

(** [self.speech.speak(text)] *)
Definition speak (text : string) : M State unit := emit (Speak text).

(** [datetime.datetime.now().isoformat()] *)
Definition now_isoformat (w : World) : M State string :=
  fun s => (Ret (datetime_now w (clock_reads s)), set_clock_reads (S (clock_reads s)) s).

Definition update_conversation_history (w : World) (text speaker : string) : M State unit :=
  let* stamp := now_isoformat w in
  modify (fun s =>
    set_history
      (conversation_history s ++ [{| text := text; speaker := speaker; timestamp := stamp |}])
      s) >>
  (* Maintain max history length *)
  let* s := get in
  if (max_history_length <? length (conversation_history s))%nat
  then modify (fun s => set_history (tail (conversation_history s)) s)   (* pop(0) *)
  else ret tt.

Definition _ensure_nlp_loaded (w : World) (self : Self) : M State unit :=
  if negb (NLP_AVAILABLE self) then modify (set_analyzer Fallback)
  else
    let* s := get in
    match sentiment_analyzer s with
    | NotLoaded => modify (set_analyzer (if pipeline_loads w then Pipeline else Fallback))
    | _ => ret tt
    end.

(** The label of [analyze_sentiment(text)]. *)
Definition analyze_sentiment (w : World) (self : Self) (text : string) : M State string :=
  _ensure_nlp_loaded w self >>
  let* s := get in
  match sentiment_analyzer s with
  | Pipeline =>
      emit (Sentiment text) >>
      ret (default "NEUTRAL" (sentiment_label w text))
  | _ => ret "NEUTRAL"
  end.

(** [random.choice(options)] for a non-empty list. *)
Definition random_pick (w : World) (options : list string) : M State string :=
  fun s =>
    (Ret (nth (random_choice w (random_draws s) mod length options) options EmptyString),
     set_random_draws (S (random_draws s)) s).

Definition generate_response (w : World) (self : Self) (text : string) : M State string :=
  let* label := analyze_sentiment w self text in
  if String.eqb label "POSITIVE"
  then random_pick w ["That sounds great!"; "I'm glad to hear that."; "Wonderful!"]
  else if String.eqb label "NEGATIVE"
  then random_pick w ["I'm sorry you're feeling that way."; "That sounds challenging.";
                      "I hope things get better."]
  else ret "I'm not sure how to respond to that, but I'm here to help!".

(** [dangerous_chars = set('`$(){}[]&|;\\')] *)
Definition dangerous_chars : string := String.append "`$(){}[]&|;" PyStr.backslash.

(** [d[key]] on the items of a dict. *)
Definition getitem (d : list (string * string)) (key : string) : M State string :=
  match assoc key d with
  | Some v => ret v
  | None => raise (KeyError key)
  end.

(** [for i, headline in enumerate(headlines, i0): speak(f"Headline {i}: {headline}")] *)
Fixpoint speak_headlines (i : nat) (headlines : list string) : M State unit :=
  match headlines with
  | [] => ret tt
  | headline :: rest =>
      speak (String.append "Headline "
               (String.append (PyStr.of_nat i) (String.append ": " headline))) >>
      speak_headlines (S i) rest
  end.

(** The chain [elif "open youtube" ... elif "play" ... elif "search" ...]
    that follows the farewell test. *)
Definition browser_commands (self : Self) (command : string) : M State unit :=
  if PyStr.str_in "open youtube" command then
    if hasattr self "browser" then BrowserManager.open_url "youtube.com"
    else speak "I'm sorry, browser features are unavailable due to missing dependencies."
  else if PyStr.str_in "play" command then
    if negb (str_mem "pywhatkit" (missing_deps self)) then
      let query := PyStr.strip (PyStr.replace "play" "" command) in
      BrowserManager.search_youtube query
    else speak "I'm sorry, YouTube features are unavailable due to missing dependencies."
  else if PyStr.str_in "search" command && PyStr.str_in "google" command then
    if hasattr self "browser" then
      let query := PyStr.strip (PyStr.replace "google" "" (PyStr.replace "search" "" command)) in
      BrowserManager.search_google query
    else speak "I'm sorry, browser features are unavailable due to missing dependencies."
  else ret tt.

(** The chain that starts at [if "shutdown" in command] and ends with the
    [else] of the default responder. *)
Definition system_commands (w : World) (self : Self) (command : string) : M State unit :=
  if PyStr.str_in "shutdown" command then
    if hasattr self "system" then
      if PyStr.str_in "confirm shutdown" command then
        let* response :=
          SystemManager.shutdown w (VObj "SystemManager") [] [("confirm", VBool true)] in
        ret tt
      else
        let* response :=
          SystemManager.shutdown w (VObj "SystemManager") [] [("confirm", VBool false)] in
        speak response
    else speak "System commands are unavailable due to missing dependencies."
  else if PyStr.str_in "cancel shutdown" command then
    if hasattr self "system" then
      let* response := SystemManager.cancel_shutdown w in
      speak response
    else speak "System commands are unavailable due to missing dependencies."
  else if PyStr.str_in "restart" command then
    if hasattr self "system" then SystemManager.restart w
    else speak "System commands are unavailable due to missing dependencies."
  else if PyStr.str_in "sleep" command then
    if hasattr self "system" then SystemManager.sleep w
    else speak "System commands are unavailable due to missing dependencies."
  else if PyStr.str_in "notepad" command || PyStr.str_in "text editor" command then
    if hasattr self "platform_utils" && hasattr self "system" then
      let* app_path :=
        PlatformUtils.find_application w
          (if PlatformUtils.is_windows w then "notepad" else "textedit") in
      match app_path with
      | Some path => if PyStr.truthy path then SystemManager.open_app w path else ret tt
      | None => ret tt
      end
    else speak "Application commands are unavailable due to missing dependencies."
  else if PyStr.str_in "weather" command then
    if hasattr self "weather" then
      let city := "London" in
      let* result := WeatherManager.get_weather w (weather_api_key self) city in
      speak result
    else speak "Weather features are unavailable due to missing dependencies."
  else if PyStr.str_in "news" command then
    if hasattr self "news" then
      speak "Here are today's top headlines:" >>
      let* headlines := NewsManager.get_news w (news_api_key self) in
      speak_headlines 1 headlines
    else speak "News features are unavailable due to missing dependencies."
  else if PyStr.str_in "where am i" command then
    if hasattr self "location" then
      let* location := LocationManager.get_location w in
      let* city := getitem location "city" in
      let* region := getitem location "region" in
      let* country := getitem location "country" in
      speak (String.append "You are in "
               (String.append city (String.append ", "
                  (String.append region (String.append ", " country)))))
    else speak "Location features are unavailable due to missing dependencies."
  else if PyStr.str_in "wikipedia" command then
    if hasattr self "wiki" then
      let query := PyStr.strip (PyStr.replace "wikipedia" "" command) in
      let* result := WikiManager.search w query in
      speak "According to Wikipedia" >>
      speak result
    else speak "Wikipedia features are unavailable due to missing dependencies."
  else if PyStr.str_in "screenshot" command || PyStr.str_in "take ss" command then
    if hasattr self "screenshot" then
      speak "Taking screenshot" >>
      let* path := ScreenshotManager.take_screenshot w in
      speak (String.append "Screenshot saved to " path)
    else speak "Screenshot features are unavailable due to missing dependencies."
  else
    let* response := generate_response w self command in
    speak response.

Definition process_command (w : World) (self : Self) (command : pyval) : M State bool :=
  (* Basic validation *)
  if negb (py_truthy command) || negb (is_str command) then ret true
  else
    match command with
    | VStr raw =>
        let command := PyStr.strip (PyStr.lower raw) in
        if PyStr.any_char (fun c => PyStr.char_in c dangerous_chars) command then
          speak "I'm sorry, that command contains characters I can't process." >>
          ret true
        else
          update_conversation_history w command "user" >>
          if PyStr.str_in "goodbye" command || PyStr.str_in "bye" command then
            speak "Goodbye! Have a great day!" >>
            ret false
          else
            browser_commands self command >>
            system_commands w self command >>
            ret true
    | _ => ret true      (* excluded by isinstance(command, str) *)
    end.

Definition wish_user (w : World) (self : Self) : M State unit :=
  let hour := now_hour w in
  let time_str := now_strftime w in
  let greeting :=
    if ((0 <=? hour) && (hour <? 12))%Z then String.append "Good Morning! It's " time_str
    else if ((12 <=? hour) && (hour <? 16))%Z then String.append "Good Afternoon! It's " time_str
    else if ((16 <=? hour) && (hour <? 20))%Z then String.append "Good Evening! It's " time_str
    else String.append "Hello! It's " time_str in
  speak (String.append greeting
           (String.append ". I am " (String.append (config_name self) ", how may I assist you?"))).

(** How a run over a finite record of what the microphone heard ends. *)
Inductive run_end : Type :=
  | Refused        (* a required dependency or the microphone is missing *)
  | Stopped        (* process_command returned False *)
  | Listening.     (* the loop is still running when the record ends *)

(** [while running: command = listen(); if command: running = process_command(command)] *)
Fixpoint run_loop (w : World) (self : Self) (heard : list (option string)) : M State run_end :=
  match heard with
  | [] => ret Listening
  | command :: rest =>
      match command with
      | Some c =>
          if PyStr.truthy c then
            let* running := process_command w self (VStr c) in
            if running then run_loop w self rest else ret Stopped
          else run_loop w self rest
      | None => run_loop w self rest
      end
  end.

Definition run (w : World) (self : Self) (heard : list (option string)) : M State run_end :=
  if str_mem "speech_recognition" (missing_deps self) || str_mem "pyttsx3" (missing_deps self)
  then
    emit (Print "ERROR: Critical voice dependencies missing.") >>
    emit (Print "Please install: pip install speech_recognition pyttsx3") >>
    ret Refused
  else if negb (microphone_ok w) then
    emit (Print "ERROR: Microphone not functioning properly.") >>
    emit (Print "Please check your microphone settings and restart.") >>
    ret Refused
  else
    wish_user w self >>
    run_loop w self heard.

(** [try: import name  except ImportError: missing.append(name)] *)
Definition try_import (importable : string -> bool) (name : string) (missing : list string)
  : list string :=
  if importable name then missing else missing ++ [name].

Definition check_dependencies (importable : string -> bool) : list string * list string :=
  let missing_deps := [] in
  (* Core dependencies *)
  let missing_deps := try_import importable "pyttsx3" missing_deps in
  let missing_deps := try_import importable "speech_recognition" missing_deps in
  (* Feature dependencies *)
  let missing_deps := try_import importable "pywhatkit" missing_deps in
  let missing_deps := try_import importable "pyautogui" missing_deps in
  let missing_deps := try_import importable "instaloader" missing_deps in
  let missing_deps := try_import importable "wikipedia" missing_deps in
  (* Optional dependencies *)
  let optional_deps := [] in
  let optional_deps := try_import importable "transformers" optional_deps in
  (missing_deps, optional_deps).

(** [__init__], with the keys [load_config] reads from the environment.
    The constructors of the managers (speech engine, browser, system,
    weather, news, screenshot, social, wiki, location) are taken to
    return and leave no mark on the state modelled here. *)
Definition __init__ (w : World) (importable : string -> bool)
  (env_weather_key env_news_key : option string) : M State Self :=
  (* Check dependencies first *)
  let '(missing_deps, optional_missing) := check_dependencies importable in
  (match missing_deps with
   | [] => ret tt
   | _ =>
       emit (Print (String.append "WARNING: Missing required dependencies: "
                      (PyStr.join ", " missing_deps))) >>
       emit (Print "Some features will not be available.") >>
       emit (Print (String.append "Install with: pip install " (PyStr.join " " missing_deps)))
   end) >>
  (match optional_missing with
   | [] => ret tt
   | _ =>
       emit (Print (String.append "NOTE: Missing optional dependencies: "
                      (PyStr.join ", " optional_missing))) >>
       emit (Print "Advanced features will be limited.")
   end) >>
  (* Core initialization: PlatformUtils() starts with an empty cache *)
  modify (set_app_cache ∅) >>
  (* App detection *)
  let* app_paths := PlatformUtils.get_installed_apps w in
  (* Enhanced features *)
  modify (set_history []) >>
  modify (set_analyzer NotLoaded) >>
  ret {| missing_deps := missing_deps;
         optional_missing := optional_missing;
         config_name := "Friday";
         weather_api_key := env_weather_key;
         news_api_key := env_news_key |}.

End VirtualAssistant.

(* ===================================================================== *)
(** ** setup_wizard.py: the helpers that compute *)
(* ===================================================================== *)

Module SetupWizard.

(** [_get_available_voices]: the catalog of the platform. *)
Definition _get_available_voices (w : World) : list string :=
  if PlatformUtils.is_windows w then PlatformUtils._get_windows_voices w
  else if PlatformUtils.is_mac w then PlatformUtils._get_mac_voices w
  else PlatformUtils._get_linux_voices w.

(** [not key] for an optional string. *)
Definition unset (key : option string) : bool :=
  match key with
  | None => true
  | Some k => negb (PyStr.truthy k)
  end.

Definition key_length (key : option string) : nat :=
  match key with Some k => String.length k | None => 0 end.

Definition _test_api_keys (weather_api_key news_api_key : option string) : string :=
  if unset weather_api_key && unset news_api_key then "skip"
  else if (negb (unset weather_api_key) && (key_length weather_api_key <? 10)%nat)
          || (negb (unset news_api_key) && (key_length news_api_key <? 10)%nat)
  then "fail"
  else "pass".

Definition _mask_key (key : option string) : string :=
  match key with
  | None => "(not set)"
  | Some k =>
      if negb (PyStr.truthy k) then "(not set)"
      else if (String.length k <=? 8)%nat then PyStr.repeat_char "*" (String.length k)
      else String.append (PyStr.take 4 k)
             (String.append (PyStr.repeat_char "*" (String.length k - 8))
                (PyStr.skip (String.length k - 4) k))
  end.

End SetupWizard.

(* ===================================================================== *)
(** ** Sample worlds and sessions *)
(* ===================================================================== *)

(** A Linux machine whose providers all answer, with [/usr/bin] holding
    two executables, a data file and a sub-directory. *)
Definition linux_world : World := {|
  platform_system := "Linux";
  path_home := "/home/user";
  datetime_now := fun i => String.append "2024-01-01T00:00:0" (PyStr.of_nat i);
  time_time := fun i => inject_Z (Z.of_nat i);
  fs_root := fun location =>
    if String.eqb location "/usr/bin"
    then Some (Dir "bin" true [File "gedit" true; File "notes.txt" false;
                              Dir "tools" true [File "TextEdit.sh" true]])
    else if String.eqb location "/opt"
    then Some (Dir "opt" true [File "gedit" true; File "vlc" true])
    else None;
  winreg_voice_tokens := None;
  say_stdout := None;
  espeak_stdout :=
    Some (String.append "Pty Language Age/Gender VoiceName          File          Other Languages"
            (String PyStr.newline EmptyString));
  weather_http := fun _ => WeatherResponse 200 (Some ("12.5", "light rain"));
  news_http := fun _ => NewsResponse 200 ["One"; "Two"];
  location_http := LocationData (Some "Pune") (Some "IN") (Some "MH");
  wikipedia_summary := fun q => inl (String.append "About " q);
  screenshot_saved := inl "/home/user/Screenshots/shot.png";
  pipeline_loads := true;
  sentiment_label := fun _ => Some "NEUTRAL";
  random_choice := fun i => i;
  microphone_ok := true;
  now_hour := 9;
  now_strftime := "09:00 AM"
|}.

(** Every dependency installed. *)
Definition full_self : Self := {|
  missing_deps := [];
  optional_missing := [];
  config_name := "Friday";
  weather_api_key := Some "key";
  news_api_key := Some "key"
|}.

(** The state [__init__] leaves. *)
Definition init_state : State := {|
  conversation_history := [];
  app_cache := ∅;
  sentiment_analyzer := NotLoaded;
  clock_reads := 0;
  time_reads := 0;
  random_draws := 0;
  trace := []
|}.

(* ===================================================================== *)
(** ** Vocabulary of the properties *)
(* ===================================================================== *)

(** The normalized form of a command: [command.lower().strip()]. *)
Definition normalize (raw : string) : string := PyStr.strip (PyStr.lower raw).

(** The text holds a character of the disallowed set. *)
Definition contains_disallowed (s : string) : Prop :=
  exists c, PyStr.char_in c s = true /\ PyStr.char_in c VirtualAssistant.dangerous_chars = true.

(** The inputs rejected before dispatch: not a string, empty, or holding
    a disallowed character. *)
Definition rejected (command : pyval) : Prop :=
  match command with
  | VStr raw => raw = EmptyString \/ contains_disallowed raw
  | _ => True
  end.

(** The farewell rule matches. *)
Definition farewell (command : string) : bool :=
  PyStr.str_in "goodbye" command || PyStr.str_in "bye" command.

(** The history after one append: the new turn goes to the end and, when
    that makes more than ten, the oldest one goes. *)
Definition append_turn (h : list Turn) (t : Turn) : list Turn :=
  let h' := h ++ [t] in
  if (max_history_length <? length h')%nat then tail h' else h'.

(** The turns a sequence of appends makes, the i-th stamped with the
    i-th reading of the clock after the first [n]. *)
Fixpoint stamp_turns (w : World) (n : nat) (items : list (string * string)) : list Turn :=
  match items with
  | [] => []
  | (t, sp) :: rest =>
      {| text := t; speaker := sp; timestamp := datetime_now w n |} :: stamp_turns w (S n) rest
  end.

(** A sequence of calls of [update_conversation_history]. *)
Definition append_all (w : World) (items : list (string * string)) : M State unit :=
  for_each items (fun '(t, sp) => VirtualAssistant.update_conversation_history w t sp).

(** The turns of the history that are not the user's. *)
Definition assistant_turns (h : list Turn) : list Turn :=
  List.filter (fun t => negb (String.eqb (speaker t) "user")) h.

(** The commands the trace passes to [os.system]. *)
Fixpoint os_calls (t : list event) : list string :=
  match t with
  | [] => []
  | OsSystem cmd :: t' => cmd :: os_calls t'
  | _ :: t' => os_calls t'
  end.

(** What the trace speaks. *)
Fixpoint spoken (t : list event) : list string :=
  match t with
  | [] => []
  | Speak text :: t' => text :: spoken t'
  | _ :: t' => spoken t'
  end.

(** The exception of a call of [shutdown] that binds no [self]. *)
Definition missing_self : exn :=
  TypeError "shutdown() missing 1 required positional argument: 'self'".

Definition clarification : string :=
  "I'm sorry, that command contains characters I can't process.".

Definition dangerous (c : ascii) : bool := PyStr.char_in c VirtualAssistant.dangerous_chars.

(** The characters the specification names: backtick, dollar sign,
    parentheses, brackets, braces, ampersand, pipe, semicolon, backslash. *)
Definition named_disallowed : list ascii :=
  map ascii_of_nat [96; 36; 40; 41; 91; 93; 123; 125; 38; 124; 59; 92].

Ltac each_ascii c :=
  destruct c as [b0 b1 b2 b3 b4 b5 b6 b7];
  destruct b0, b1, b2, b3, b4, b5, b6, b7.

(** The body of [process_command] once the input is a non-empty string. *)
Definition dispatch (w : World) (self : Self) (command : string) : M State bool :=
  if PyStr.any_char dangerous command then
    VirtualAssistant.speak clarification >> ret true
  else
    VirtualAssistant.update_conversation_history w command "user" >>
    if farewell command then
      VirtualAssistant.speak "Goodbye! Have a great day!" >> ret false
    else
      VirtualAssistant.browser_commands self command >>
      VirtualAssistant.system_commands w self command >>
      ret true.

(** What the browser chain can add to the trace. *)
Definition browser_event (e : event) : Prop :=
  match e with
  | WebOpen _ | PlayOnYt _ => True
  | Speak text =>
      text = "I'm sorry, browser features are unavailable due to missing dependencies."
      \/ text = "I'm sorry, YouTube features are unavailable due to missing dependencies."
  | _ => False
  end.

Definition confirmation_prompt : string := "Please confirm by saying 'confirm shutdown'".

(** The farewell claim at one input: [process_command] returns [False]
    and the history holds one assistant turn more than before. *)
Definition farewell_claim (w : World) (self : Self) (raw : string) (s : State) : Prop :=
  fst (VirtualAssistant.process_command w self (VStr raw) s) = Ret false
  /\ length (assistant_turns
               (conversation_history (snd (VirtualAssistant.process_command w self (VStr raw) s))))
     = S (length (assistant_turns (conversation_history s))).

(** The catalog of the platform the program runs on. *)
Definition platform_voices (w : World) : list string :=
  if PlatformUtils.is_windows w then PlatformUtils._get_windows_voices w
  else if PlatformUtils.is_mac w then PlatformUtils._get_mac_voices w
  else PlatformUtils._get_linux_voices w.

(** The sample machine with the location lookup failing. *)
Definition offline_world : World := {|
  platform_system := "Linux";
  path_home := path_home linux_world;
  datetime_now := datetime_now linux_world;
  time_time := time_time linux_world;
  fs_root := fs_root linux_world;
  winreg_voice_tokens := None;
  say_stdout := None;
  espeak_stdout := None;
  weather_http := fun _ => WeatherConnectionError;
  news_http := fun _ => NewsRaised "connection refused";
  location_http := LocationRaised "connection refused";
  wikipedia_summary := fun _ => inr "connection refused";
  screenshot_saved := screenshot_saved linux_world;
  pipeline_loads := false;
  sentiment_label := fun _ => None;
  random_choice := fun i => i;
  microphone_ok := true;
  now_hour := 21;
  now_strftime := "09:00 PM"
|}.

(** The index after the first [k] search locations. *)
Definition scan_prefix (w : World) (max_depth : Z) (locations : list string)
  (paths : gmap string string) : gmap string string :=
  fold_left
    (fun paths location =>
       PlatformUtils._scan_directory w (PlatformUtils.path_str w location)
         (fs_root w location) paths 0 max_depth)
    locations paths.

(** The index a scan builds when no deadline stops it. *)
Definition full_scan (w : World) (max_depth : Z) : gmap string string :=
  scan_prefix w max_depth
    (default [] (assoc (platform_system w) (PlatformUtils.COMMON_APP_LOCATIONS w)))
    ∅.

(** *** Vocabulary of the further properties *)

(** [s'] differs from [s] at most by events added to the trace, by the
    sentiment analyzer loaded, and by the counters of the readings of
    the clocks and of the random source. *)
Definition extends (s s' : State) : Prop :=
  conversation_history s' = conversation_history s
  /\ app_cache s' = app_cache s
  /\ clock_reads s' = clock_reads s
  /\ exists evs, trace s' = trace s ++ evs.

(** A computation that keeps the history, the cache and the date clock,
    and only adds to the trace. *)
Definition frames {A} (m : M State A) : Prop := forall s, extends s (snd (m s)).

(** None of the keywords occurs in the command. *)
Definition none_in (keywords : list string) (command : string) : bool :=
  forallb (fun k => negb (PyStr.str_in k command)) keywords.

(** The sentences of the default responder. *)
Definition canned_responses : list string :=
  ["That sounds great!"; "I'm glad to hear that."; "Wonderful!";
   "I'm sorry you're feeling that way."; "That sounds challenging.";
   "I hope things get better.";
   "I'm not sure how to respond to that, but I'm here to help!"].

Definition neutral_response : string :=
  "I'm not sure how to respond to that, but I'm here to help!".

(** The requests the trace sends over HTTP. *)
Fixpoint http_requests (t : list event) : list string :=
  match t with
  | [] => []
  | HttpGet url :: t' => url :: http_requests t'
  | _ :: t' => http_requests t'
  end.

(** The utterances [run_loop] acts on: the ones that are a non-empty text. *)
Definition heard_commands (heard : list (option string)) : list (option string) :=
  List.filter (fun c => match c with Some t => PyStr.truthy t | None => false end) heard.

(** Every key of the index is its own lower-case form. *)
Definition keys_lower (paths : gmap string string) : Prop :=
  forall k v, paths !! k = Some v -> PyStr.lower k = k.

(** The user turn [process_command] records for a command. *)
Definition user_turn (w : World) (s : State) (command : string) : Turn :=
  {| text := command; speaker := "user"; timestamp := datetime_now w (clock_reads s) |}.

(** The keywords of the rules of the system chain, in the order they are
    tested ("cancel shutdown" is left out: a command that holds it holds
    "shutdown"). *)
Definition system_keywords : list string :=
  ["shutdown"; "restart"; "sleep"; "notepad"; "text editor"; "weather"; "news";
   "where am i"; "wikipedia"; "screenshot"; "take ss"].

(** No rule of the browser chain matches. *)
Definition no_browser_rule (command : string) : bool :=
  none_in ["open youtube"; "play"] command
  && negb (PyStr.str_in "search" command && PyStr.str_in "google" command).

(** The request [get_weather] sends for a city. *)
Definition weather_url (key city : string) : string :=
  String.append "http://api.openweathermap.org/data/2.5/weather?q="
    (String.append city (String.append "&appid=" (String.append key "&units=metric"))).

(** The request [get_news] sends. *)
Definition news_url (key : option string) : string :=
  String.append "https://newsapi.org/v2/top-headlines?sources=techcrunch&apiKey="
    (match key with Some k => k | None => "None" end).

(** The six modules [check_dependencies] requires, in the order it tries
    them. *)
Definition required_modules : list string :=
  ["pyttsx3"; "speech_recognition"; "pywhatkit"; "pyautogui"; "instaloader"; "wikipedia"].

(** The prefix of a macOS voice identifier. *)
Definition mac_voice_prefix : string := "com.apple.speech.synthesis.voice.".

(** The lines of the voice listing that the Linux enumeration reads: the
    non-empty ones after the header line. *)
Definition espeak_lines (stdout : string) : list string :=
  filter (fun line => PyStr.truthy line = true) (tail (PyStr.split_on PyStr.newline stdout)).

(** Every character of the text is [c]. *)
Fixpoint all_char (c : ascii) (s : string) : bool :=
  match s with
  | EmptyString => true
  | String d s' => Ascii.eqb c d && all_char c s'
  end.

(** An API key that is set: not [None] and not empty. *)
Definition key_set (key : option string) : bool := negb (SetupWizard.unset key).

(* ===================================================================== *)
(** ** The conversation history *)
(* ===================================================================== *)

Section History.
Variable w : World.

Lemma update_conversation_history_spec (t sp : string) (s : State) :
  VirtualAssistant.update_conversation_history w t sp s
  = (Ret tt,
     set_history
       (append_turn (conversation_history s)
          {| text := t; speaker := sp; timestamp := datetime_now w (clock_reads s) |})
       (set_clock_reads (S (clock_reads s)) s)).
Proof.
  unfold VirtualAssistant.update_conversation_history, append_turn, bind,
    VirtualAssistant.now_isoformat, modify, get, ret.
  cbn [conversation_history set_history set_clock_reads clock_reads].
  destruct (max_history_length <? _)%nat; reflexivity.
Qed.

Lemma append_turn_length (h : list Turn) (t : Turn) :
  length h <= max_history_length -> length (append_turn h t) <= max_history_length.
Proof.
  unfold append_turn, max_history_length. intros Hh. cbn zeta.
  destruct (Nat.ltb_spec 10 (length (h ++ [t]))) as [Hlt | Hle].
  - rewrite length_app in Hlt. cbn in Hlt.
    destruct h as [| x h']; cbn in *; [lia |].
    rewrite length_app. cbn. lia.
  - exact Hle.
Qed.

(** Appending to the last ten of [a] gives the last ten of [a ++ [t]]. *)
Lemma append_turn_drop (a : list Turn) (t : Turn) :
  append_turn (drop (length a - max_history_length) a) t
  = drop (length (a ++ [t]) - max_history_length) (a ++ [t]).
Proof.
  unfold append_turn, max_history_length. cbn zeta.
  rewrite !length_app, length_drop. cbn [length].
  destruct (Nat.ltb_spec 10 (length a - (length a - 10) + 1)) as [Hlt | Hle].
  - assert (Hlen : 10 <= length a) by lia.
    replace (length a + 1 - 10) with (S (length a - 10)) by lia.
    rewrite (drop_app_le a [t] (S _)) by lia.
    replace (S (length a - 10)) with (length a - 10 + 1) by lia.
    rewrite <- (drop_drop a 1 (length a - 10)).
    destruct (drop (length a - 10) a) as [| x l] eqn:E.
    + apply (f_equal length) in E. rewrite length_drop in E. cbn in E. lia.
    + reflexivity.
  - replace (length a - 10) with 0 by lia.
    replace (length a + 1 - 10) with 0 by lia.
    reflexivity.
Qed.

Lemma append_all_spec (items : list (string * string)) :
  forall (a : list Turn) (s : State),
    conversation_history s = drop (length a - max_history_length) a ->
    let all := a ++ stamp_turns w (clock_reads s) items in
    fst (append_all w items s) = Ret tt
    /\ conversation_history (snd (append_all w items s))
       = drop (length all - max_history_length) all.
Proof.
  induction items as [| [t sp] rest IH]; intros a s Ha; cbn zeta.
  - cbn. rewrite app_nil_r. auto.
  - unfold append_all. cbn [for_each]. unfold bind.
    rewrite update_conversation_history_spec.
    set (turn := {| text := t; speaker := sp; timestamp := datetime_now w (clock_reads s) |}).
    set (s1 := set_history _ _).
    specialize (IH (a ++ [turn]) s1).
    assert (H1 : conversation_history s1
                 = drop (length (a ++ [turn]) - max_history_length) (a ++ [turn])).
    { subst s1. cbn [conversation_history set_history]. rewrite Ha. apply append_turn_drop. }
    specialize (IH H1). cbn zeta in IH.
    replace (clock_reads s1) with (S (clock_reads s)) in IH by reflexivity.
    cbn [stamp_turns]. fold turn.
    rewrite <- app_assoc in IH. cbn [app] in IH.
    exact IH.
Qed.

End History.

(** C7. After any sequence of appends to a history of at most ten turns,
    the history holds at most ten turns, and they are the last ten of
    all the turns (the old ones followed by the new ones) in their order:
    the oldest turns are the ones evicted. *)
Theorem history_keeps_last_ten (w : World) (items : list (string * string)) (s : State) :
  length (conversation_history s) <= 10 ->
  let all := conversation_history s ++ stamp_turns w (clock_reads s) items in
  let s' := snd (append_all w items s) in
  fst (append_all w items s) = Ret tt
  /\ length (conversation_history s') <= 10
  /\ conversation_history s' = drop (length all - 10) all.
Proof.
  intros Hlen all s'.
  destruct (append_all_spec w items (conversation_history s) s) as [Hret Hhist].
  { replace (length (conversation_history s) - max_history_length) with 0
      by (unfold max_history_length; lia).
    reflexivity. }
  split; [exact Hret |].
  subst s' all. rewrite Hhist. unfold max_history_length. split; [| reflexivity].
  rewrite length_drop. lia.
Qed.

(** Twelve appends to the empty history leave turns 3 to 12, in order. *)
Lemma history_keeps_last_ten_witness :
  length (conversation_history init_state) <= 10
  /\ map text
       (conversation_history
          (snd (append_all linux_world
                  (map (fun n => (PyStr.of_nat n, "user")) (seq 1 12)) init_state)))
     = map PyStr.of_nat (seq 3 10).
Proof.
  split; [cbn; lia |].
  destruct (history_keeps_last_ten linux_world
              (map (fun n => (PyStr.of_nat n, "user")) (seq 1 12)) init_state)
    as (_ & _ & H); [cbn; lia |].
  rewrite H. vm_compute. reflexivity.
Defined.

(* ===================================================================== *)
(** ** Sanitizing the command *)
(* ===================================================================== *)

Lemma dangerous_lower_char (c : ascii) : dangerous (PyStr.lower_char c) = dangerous c.
Proof. each_ascii c; vm_compute; reflexivity. Qed.

Lemma dangerous_not_space (c : ascii) : dangerous c = true -> PyStr.is_space c = false.
Proof. each_ascii c; vm_compute; intros H; first [reflexivity | discriminate H]. Qed.

Lemma any_char_contains (s : string) :
  PyStr.any_char dangerous s = true <-> contains_disallowed s.
Proof.
  unfold contains_disallowed. fold dangerous. induction s as [| d s IH]; cbn.
  - split; [discriminate | intros (c & H & _); discriminate].
  - rewrite orb_true_iff, IH. split.
    + intros [Hd | (c & Hin & Hc)].
      * exists d. rewrite Ascii.eqb_refl. auto.
      * exists c. rewrite Hin, orb_true_r. auto.
    + intros (c & Hin & Hc). apply orb_true_iff in Hin as [Heq | Hin].
      * apply Ascii.eqb_eq in Heq. subst. auto.
      * right. eauto.
Qed.

Lemma any_char_lower (s : string) :
  PyStr.any_char dangerous (PyStr.lower s) = PyStr.any_char dangerous s.
Proof.
  induction s as [| c s IH]; cbn; [reflexivity |].
  now rewrite dangerous_lower_char, IH.
Qed.

Lemma any_char_lstrip (s : string) :
  PyStr.any_char dangerous (PyStr.lstrip s) = PyStr.any_char dangerous s.
Proof.
  induction s as [| c s IH]; cbn; [reflexivity |].
  destruct (PyStr.is_space c) eqn:Hsp; [| reflexivity].
  rewrite IH. destruct (dangerous c) eqn:Hd; [| reflexivity].
  apply dangerous_not_space in Hd. congruence.
Qed.

Lemma any_char_rstrip (s : string) :
  PyStr.any_char dangerous (PyStr.rstrip s) = PyStr.any_char dangerous s.
Proof.
  induction s as [| c s IH]; cbn; [reflexivity |].
  destruct (PyStr.rstrip s) as [| d r] eqn:E.
  - cbn in IH. rewrite <- IH.
    destruct (PyStr.is_space c) eqn:Hsp; cbn; [| reflexivity].
    destruct (dangerous c) eqn:Hd; [| reflexivity].
    apply dangerous_not_space in Hd. congruence.
  - cbn [PyStr.any_char] in *. now rewrite IH.
Qed.

(** Normalizing neither removes nor introduces a disallowed character. *)
Lemma any_char_normalize (raw : string) :
  PyStr.any_char dangerous (normalize raw) = PyStr.any_char dangerous raw.
Proof.
  unfold normalize, PyStr.strip.
  now rewrite any_char_rstrip, any_char_lstrip, any_char_lower.
Qed.

Lemma contains_disallowed_normalize (raw : string) :
  contains_disallowed (normalize raw) <-> contains_disallowed raw.
Proof. now rewrite <- !any_char_contains, any_char_normalize. Qed.

Lemma process_command_str (w : World) (self : Self) (raw : string) (s : State) :
  raw <> EmptyString ->
  VirtualAssistant.process_command w self (VStr raw) s = dispatch w self (normalize raw) s.
Proof.
  intros Hne. destruct raw as [| c raw]; [congruence |]. reflexivity.
Qed.

Lemma process_command_dangerous (w : World) (self : Self) (raw : string) (s : State) :
  PyStr.any_char dangerous raw = true ->
  VirtualAssistant.process_command w self (VStr raw) s
  = (Ret true, set_trace (trace s ++ [Speak clarification]) s).
Proof.
  intros Hd. rewrite process_command_str by (intros ->; discriminate Hd).
  unfold dispatch. rewrite any_char_normalize, Hd. reflexivity.
Qed.

(** C4. The disallowed set holds the characters the specification names,
    and an input whose normalized form holds a disallowed character is
    answered with the clarification and nothing else: [process_command]
    returns [True] and the state is the one before but for that one
    utterance, so no feature action is invoked. *)
Theorem disallowed_character_rejected (w : World) (self : Self) (raw : string) (s : State) :
  contains_disallowed (normalize raw) ->
  Forall (fun c => dangerous c = true) named_disallowed
  /\ VirtualAssistant.process_command w self (VStr raw) s
     = (Ret true, set_trace (trace s ++ [Speak clarification]) s).
Proof.
  intros H. split.
  - repeat constructor.
  - apply process_command_dangerous.
    now rewrite <- any_char_normalize, any_char_contains.
Qed.

Lemma disallowed_character_rejected_witness :
  contains_disallowed (normalize "Open YouTube; shutdown")
  /\ VirtualAssistant.process_command linux_world full_self
       (VStr "Open YouTube; shutdown") init_state
     = (Ret true, set_trace [Speak clarification] init_state).
Proof.
  assert (H : contains_disallowed (normalize "Open YouTube; shutdown")).
  { apply any_char_contains. vm_compute. reflexivity. }
  split; [exact H |].
  exact (proj2 (disallowed_character_rejected linux_world full_self
                  "Open YouTube; shutdown" init_state H)).
Defined.

(** C10. An input rejected before dispatch (not a string, empty, or
    holding a disallowed character) makes [process_command] return [True]
    with the conversation history as it was; the only thing that differs
    in the state afterwards is the trace of what was spoken. *)
Theorem rejected_input_leaves_state (w : World) (self : Self) (command : pyval) (s : State) :
  rejected command ->
  let s' := snd (VirtualAssistant.process_command w self command s) in
  fst (VirtualAssistant.process_command w self command s) = Ret true
  /\ conversation_history s' = conversation_history s
  /\ set_trace (trace s) s' = s.
Proof.
  intros Hrej. cbn zeta.
  assert (Hs : set_trace (trace s) s = s) by (destruct s; reflexivity).
  destruct command as [| b | z | raw | cls]; cbn [rejected] in Hrej.
  - cbn. auto.
  - destruct b; cbn; auto.
  - unfold VirtualAssistant.process_command. cbn [py_truthy is_str].
    destruct (negb (z =? 0)%Z); cbn; auto.
  - destruct Hrej as [-> | Hd].
    + cbn. auto.
    + apply any_char_contains in Hd.
      rewrite (process_command_dangerous w self raw s Hd). cbn.
      destruct s; auto.
  - cbn. auto.
Qed.

Lemma rejected_input_leaves_state_witness :
  rejected (VStr "echo $HOME")
  /\ conversation_history
       (snd (VirtualAssistant.process_command linux_world full_self (VStr "echo $HOME") init_state))
     = [].
Proof.
  assert (H : rejected (VStr "echo $HOME")).
  { right. apply any_char_contains. vm_compute. reflexivity. }
  split; [exact H |].
  exact (proj1 (proj2 (rejected_input_leaves_state linux_world full_self
                         (VStr "echo $HOME") init_state H))).
Defined.

(* ===================================================================== *)
(** ** Substrings *)
(* ===================================================================== *)

Lemma prefix_spec (p s : string) :
  String.prefix p s = true <-> exists b, s = String.append p b.
Proof.
  revert s. induction p as [| c p IH]; intros s.
  - destruct s; cbn; (split; [intros _; eexists; reflexivity | reflexivity]).
  - destruct s as [| d s]; cbn; [split; [discriminate | intros (b & Hb); discriminate] |].
    destruct (ascii_dec c d) as [-> | Hne].
    + rewrite IH. split; intros (b & Hb); exists b.
      * now rewrite Hb.
      * now injection Hb.
    + split; [discriminate |]. intros (b & Hb). injection Hb as Hcd _. congruence.
Qed.

Lemma append_cons (x : ascii) (a b : string) :
  String.append (String x a) b = String x (String.append a b).
Proof. reflexivity. Qed.

Lemma append_nil_l (b : string) : String.append EmptyString b = b.
Proof. reflexivity. Qed.

Lemma append_assoc (a b c : string) :
  String.append (String.append a b) c = String.append a (String.append b c).
Proof.
  induction a as [| x a IH]; [reflexivity |].
  rewrite !append_cons. f_equal. exact IH.
Qed.

(** [needle in hay] holds exactly when [hay] splits around [needle]. *)
Lemma str_in_spec (needle hay : string) :
  PyStr.str_in needle hay = true
  <-> exists a b, hay = String.append a (String.append needle b).
Proof.
  induction hay as [| d hay IH].
  - cbn [PyStr.str_in]. destruct (String.prefix needle EmptyString) eqn:Hp.
    + apply prefix_spec in Hp as (b & Hb). split; [| reflexivity].
      intros _. exists EmptyString, b. exact Hb.
    + split; [discriminate |]. intros (a & b & Hab).
      destruct a as [| x a]; [| rewrite append_cons in Hab; discriminate].
      rewrite append_nil_l in Hab.
      assert (String.prefix needle EmptyString = true) by (apply prefix_spec; eauto).
      congruence.
  - cbn [PyStr.str_in]. destruct (String.prefix needle (String d hay)) eqn:Hp.
    + apply prefix_spec in Hp as (b & Hb). split; [| reflexivity].
      intros _. exists EmptyString, b. exact Hb.
    + rewrite IH. split.
      * intros (a & b & ->). exists (String d a), b. reflexivity.
      * intros (a & b & Hab). destruct a as [| x a].
        -- rewrite append_nil_l in Hab.
           assert (String.prefix needle (String d hay) = true) by (apply prefix_spec; eauto).
           congruence.
        -- rewrite append_cons in Hab. injection Hab as _ ->. eauto.
Qed.

(** A text that holds [pre ++ needle] holds [needle]. *)
Lemma str_in_suffix (pre needle hay : string) :
  PyStr.str_in (String.append pre needle) hay = true -> PyStr.str_in needle hay = true.
Proof.
  rewrite !str_in_spec. intros (a & b & ->).
  exists (String.append a pre), b. now rewrite !append_assoc.
Qed.

Lemma str_in_cancel_shutdown (command : string) :
  PyStr.str_in "cancel shutdown" command = true -> PyStr.str_in "shutdown" command = true.
Proof. apply (str_in_suffix "cancel " "shutdown"). Qed.

Lemma str_in_confirm_shutdown (command : string) :
  PyStr.str_in "confirm shutdown" command = true -> PyStr.str_in "shutdown" command = true.
Proof. apply (str_in_suffix "confirm " "shutdown"). Qed.

(* ===================================================================== *)
(** ** The shutdown family *)
(* ===================================================================== *)

Lemma emit_run (e : event) (s : State) :
  emit e s = (Ret tt, set_trace (trace s ++ [e]) s).
Proof. reflexivity. Qed.

(** The browser chain never raises and adds at most one event. *)
Lemma browser_commands_events (self : Self) (command : string) (s : State) :
  exists evs,
    VirtualAssistant.browser_commands self command s = (Ret tt, set_trace (trace s ++ evs) s)
    /\ Forall browser_event evs.
Proof.
  assert (Hnil : (Ret tt, s) = (Ret tt, set_trace (trace s ++ []) s)).
  { rewrite app_nil_r. destruct s; reflexivity. }
  unfold VirtualAssistant.browser_commands.
  repeat match goal with
         | |- context [if ?b then _ else _] => destruct b
         end;
    first [ exists []; split; [exact Hnil | constructor]
          | eexists [_]; split;
            [apply emit_run | constructor; [cbn; now auto | constructor]] ].
Qed.

(** Binding the call [self.system.shutdown(confirm=...)]: the method is a
    [@staticmethod], so nothing fills its first parameter [self]. *)
Lemma shutdown_call_raises (w : World) (receiver confirm : pyval) (s : State) :
  SystemManager.shutdown w receiver [] [("confirm", confirm)] s = (Raise missing_self, s).
Proof. reflexivity. Qed.

Lemma system_commands_shutdown (w : World) (self : Self) (command : string) (s : State) :
  PyStr.str_in "shutdown" command = true ->
  VirtualAssistant.system_commands w self command s = (Raise missing_self, s).
Proof.
  intros H. unfold VirtualAssistant.system_commands. rewrite H.
  change (VirtualAssistant.hasattr self "system") with true. cbv iota.
  destruct (PyStr.str_in "confirm shutdown" command);
    unfold bind; rewrite shutdown_call_raises; reflexivity.
Qed.

(** Every accepted command that holds "shutdown" and is no farewell ends
    in the [TypeError], after the user turn and whatever the browser
    chain did. *)
Lemma dispatch_shutdown (w : World) (self : Self) (command : string) (s : State) :
  PyStr.any_char dangerous command = false ->
  farewell command = false ->
  PyStr.str_in "shutdown" command = true ->
  exists evs,
    dispatch w self command s
    = (Raise missing_self,
       set_trace (trace s ++ evs)
         (set_history
            (append_turn (conversation_history s)
               {| text := command; speaker := "user";
                  timestamp := datetime_now w (clock_reads s) |})
            (set_clock_reads (S (clock_reads s)) s)))
    /\ Forall browser_event evs.
Proof.
  intros Hd Hf Hs. unfold dispatch. rewrite Hd, Hf. unfold bind at 1.
  rewrite update_conversation_history_spec.
  set (s1 := set_history _ _).
  destruct (browser_commands_events self command s1) as (evs & Hb & Hevs).
  exists evs. split; [| exact Hevs].
  unfold bind at 1. rewrite Hb. unfold bind.
  rewrite system_commands_shutdown by exact Hs. reflexivity.
Qed.

Lemma browser_events_os_calls (evs : list event) :
  Forall browser_event evs -> os_calls evs = [].
Proof.
  induction 1 as [| e evs He _ IH]; [reflexivity |].
  destruct e; cbn in *; try contradiction; exact IH.
Qed.

Lemma browser_events_spoken (evs : list event) (text : string) :
  Forall browser_event evs -> In text (spoken evs) -> browser_event (Speak text).
Proof.
  induction 1 as [| e evs He _ IH]; cbn; [contradiction |].
  destruct e; cbn in *; try contradiction; auto.
  intros [<- | Hin]; auto.
Qed.

(** An accepted command that is no farewell and holds "shutdown". *)
Lemma process_command_shutdown (w : World) (self : Self) (raw : string) (s : State) :
  ~ contains_disallowed (normalize raw) ->
  farewell (normalize raw) = false ->
  PyStr.str_in "shutdown" (normalize raw) = true ->
  fst (VirtualAssistant.process_command w self (VStr raw) s) = Raise missing_self
  /\ exists evs,
       trace (snd (VirtualAssistant.process_command w self (VStr raw) s)) = trace s ++ evs
       /\ Forall browser_event evs.
Proof.
  intros Hd Hf Hs.
  assert (Hne : raw <> EmptyString) by (intros ->; discriminate Hs).
  assert (Hd' : PyStr.any_char dangerous (normalize raw) = false).
  { destruct (PyStr.any_char dangerous (normalize raw)) eqn:E; [| reflexivity].
    apply any_char_contains in E. contradiction. }
  rewrite process_command_str by exact Hne.
  destruct (dispatch_shutdown w self (normalize raw) s Hd' Hf Hs) as (evs & -> & Hevs).
  split; [reflexivity |]. exists evs. split; [reflexivity | exact Hevs].
Qed.

(** C1 (what the code does instead). Every accepted command that holds
    "shutdown", with the confirmation phrase or without it, ends in the
    [TypeError] of the call that binds no [self]: no confirmation prompt
    is spoken and [os.system] is not called. *)
Theorem shutdown_family_raises (w : World) (self : Self) (raw : string) (s : State) :
  ~ contains_disallowed (normalize raw) ->
  farewell (normalize raw) = false ->
  PyStr.str_in "shutdown" (normalize raw) = true ->
  fst (VirtualAssistant.process_command w self (VStr raw) s) = Raise missing_self
  /\ exists evs,
       trace (snd (VirtualAssistant.process_command w self (VStr raw) s)) = trace s ++ evs
       /\ os_calls evs = []
       /\ ~ In confirmation_prompt (spoken evs).
Proof.
  intros Hd Hf Hs.
  destruct (process_command_shutdown w self raw s Hd Hf Hs) as (Hr & evs & Ht & Hevs).
  split; [exact Hr |]. exists evs. split; [exact Ht |].
  split; [now apply browser_events_os_calls |].
  intros Hin. apply (browser_events_spoken evs _ Hevs) in Hin.
  destruct Hin as [H | H]; discriminate H.
Qed.

Lemma not_disallowed_by_computation (s : string) :
  PyStr.any_char dangerous s = false -> ~ contains_disallowed s.
Proof. intros H Hc. apply any_char_contains in Hc. congruence. Qed.

Lemma shutdown_family_raises_witness :
  fst (VirtualAssistant.process_command linux_world full_self (VStr "Confirm Shutdown") init_state)
  = Raise missing_self
  /\ fst (VirtualAssistant.process_command linux_world full_self (VStr "shutdown") init_state)
     = Raise missing_self.
Proof.
  split.
  - apply (shutdown_family_raises linux_world full_self "Confirm Shutdown" init_state).
    + apply not_disallowed_by_computation. vm_compute. reflexivity.
    + vm_compute. reflexivity.
    + vm_compute. reflexivity.
  - apply (shutdown_family_raises linux_world full_self "shutdown" init_state).
    + apply not_disallowed_by_computation. vm_compute. reflexivity.
    + vm_compute. reflexivity.
    + vm_compute. reflexivity.
Defined.

(** C3 (what the code does instead). A command that holds "cancel
    shutdown" holds "shutdown", so the branch of the shutdown rule takes
    it: the call ends in the [TypeError], [cancel_shutdown] is not
    reached, [os.system] is not called and "Shutdown canceled" is not
    spoken. *)
Theorem cancel_shutdown_not_reached (w : World) (self : Self) (raw : string) (s : State) :
  ~ contains_disallowed (normalize raw) ->
  farewell (normalize raw) = false ->
  PyStr.str_in "cancel shutdown" (normalize raw) = true ->
  fst (VirtualAssistant.process_command w self (VStr raw) s) = Raise missing_self
  /\ exists evs,
       trace (snd (VirtualAssistant.process_command w self (VStr raw) s)) = trace s ++ evs
       /\ os_calls evs = []
       /\ ~ In "Shutdown canceled" (spoken evs).
Proof.
  intros Hd Hf Hs. apply str_in_cancel_shutdown in Hs.
  destruct (process_command_shutdown w self raw s Hd Hf Hs) as (Hr & evs & Ht & Hevs).
  split; [exact Hr |]. exists evs. split; [exact Ht |].
  split; [now apply browser_events_os_calls |].
  intros Hin. apply (browser_events_spoken evs _ Hevs) in Hin.
  destruct Hin as [H | H]; discriminate H.
Qed.

Lemma cancel_shutdown_not_reached_witness :
  VirtualAssistant.process_command linux_world full_self (VStr "cancel shutdown") init_state
  = (Raise missing_self,
     set_history [{| text := "cancel shutdown"; speaker := "user";
                     timestamp := "2024-01-01T00:00:00" |}]
       (set_clock_reads 1 init_state))
  /\ fst (VirtualAssistant.process_command linux_world full_self (VStr "cancel shutdown") init_state)
     = Raise missing_self.
Proof.
  split; [vm_compute; reflexivity |].
  apply (cancel_shutdown_not_reached linux_world full_self "cancel shutdown" init_state).
  - apply not_disallowed_by_computation. vm_compute. reflexivity.
  - vm_compute. reflexivity.
  - vm_compute. reflexivity.
Defined.

Lemma wish_user_run (w : World) (self : Self) (s : State) :
  exists text, VirtualAssistant.wish_user w self s = (Ret tt, set_trace (trace s ++ [Speak text]) s).
Proof. unfold VirtualAssistant.wish_user, VirtualAssistant.speak. eexists. apply emit_run. Qed.

(** C2 (what the code does instead). With the required dependencies and
    the microphone present, a run that hears "shutdown" does not go on
    listening: the [TypeError] raised while the shutdown rule is
    dispatched leaves [process_command] and then [run], whatever would
    have been heard next. *)
Theorem shutdown_exception_leaves_run (w : World) (self : Self)
  (rest : list (option string)) (s : State) :
  str_mem "speech_recognition" (missing_deps self) || str_mem "pyttsx3" (missing_deps self) = false ->
  microphone_ok w = true ->
  fst (VirtualAssistant.process_command w self (VStr "shutdown") s) = Raise missing_self
  /\ fst (VirtualAssistant.run w self (Some "shutdown" :: rest) s) = Raise missing_self.
Proof.
  intros Hdeps Hmic.
  assert (Hpc : forall s0, fst (VirtualAssistant.process_command w self (VStr "shutdown") s0)
                           = Raise missing_self).
  { intros s0. apply process_command_shutdown.
    - apply not_disallowed_by_computation. vm_compute. reflexivity.
    - vm_compute. reflexivity.
    - vm_compute. reflexivity. }
  split; [apply Hpc |].
  unfold VirtualAssistant.run. rewrite Hdeps, Hmic. cbn [negb].
  destruct (wish_user_run w self s) as (text & Hw).
  unfold bind at 1. rewrite Hw.
  cbn [VirtualAssistant.run_loop PyStr.truthy]. unfold bind.
  specialize (Hpc (set_trace (trace s ++ [Speak text]) s)).
  destruct (VirtualAssistant.process_command w self (VStr "shutdown") _) as [r s1].
  cbn in Hpc. subst r. reflexivity.
Qed.

(** Two more rules whose exception leaves [process_command]: the
    location rule when the lookup fails (the error dict has no "city"),
    and the editor rule when the application is not cached (the scan
    raises on its first clock reading). *)
Example where_am_i_raises :
  fst (VirtualAssistant.process_command offline_world full_self (VStr "where am i") init_state)
  = Raise (KeyError "city").
Proof. vm_compute. reflexivity. Qed.

Example notepad_raises :
  fst (VirtualAssistant.process_command linux_world full_self (VStr "open notepad") init_state)
  = Raise (NameError "time").
Proof. vm_compute. reflexivity. Qed.

Lemma shutdown_exception_leaves_run_witness :
  fst (VirtualAssistant.run linux_world full_self [Some "shutdown"; Some "what time is it"] init_state)
  = Raise missing_self.
Proof.
  apply (shutdown_exception_leaves_run linux_world full_self [Some "what time is it"] init_state);
    reflexivity.
Defined.

(** C5 (what the code does instead). The system chain starts with a
    fresh [if], so a command the browser chain has served goes on into
    it: "play restart" plays the search for "restart" and then restarts
    the machine. *)
Theorem browser_rule_then_system_rule (w : World) (self : Self) (s : State) :
  str_mem "pywhatkit" (missing_deps self) = false ->
  fst (VirtualAssistant.process_command w self (VStr "play restart") s) = Ret true
  /\ exists cmd,
       trace (snd (VirtualAssistant.process_command w self (VStr "play restart") s))
       = trace s ++ [PlayOnYt "restart"; OsSystem cmd].
Proof.
  intros Hdep.
  assert (H : exists cmd s1,
             VirtualAssistant.process_command w self (VStr "play restart") s
             = (Ret true, set_trace ((trace s1 ++ [PlayOnYt "restart"]) ++ [OsSystem cmd]) s1)
             /\ trace s1 = trace s).
  { rewrite process_command_str by discriminate.
    change (normalize "play restart") with "play restart".
    unfold dispatch.
    change (PyStr.any_char dangerous "play restart") with false.
    change (farewell "play restart") with false. cbv iota.
    unfold bind at 1. rewrite update_conversation_history_spec.
    set (s1 := set_history _ _).
    unfold VirtualAssistant.browser_commands.
    change (PyStr.str_in "open youtube" "play restart") with false.
    change (PyStr.str_in "play" "play restart") with true. cbv iota.
    rewrite Hdep. cbn [negb].
    change (PyStr.strip (PyStr.replace "play" "" "play restart")) with "restart".
    unfold VirtualAssistant.system_commands.
    change (PyStr.str_in "shutdown" "play restart") with false.
    change (PyStr.str_in "cancel shutdown" "play restart") with false.
    change (PyStr.str_in "restart" "play restart") with true. cbv iota.
    change (VirtualAssistant.hasattr self "system") with true. cbv iota.
    unfold SystemManager.restart, SystemManager.os_system, BrowserManager.search_youtube.
    destruct (String.eqb (platform_system w) "Windows");
      eexists; exists s1; (split; [reflexivity | reflexivity]). }
  destruct H as (cmd & s1 & -> & Ht).
  split; [reflexivity |]. exists cmd. cbn. rewrite Ht, <- app_assoc. reflexivity.
Qed.

Lemma browser_rule_then_system_rule_witness :
  str_mem "pywhatkit" (missing_deps full_self) = false
  /\ fst (VirtualAssistant.process_command linux_world full_self (VStr "play restart") init_state)
     = Ret true.
Proof.
  split; [reflexivity |].
  apply (browser_rule_then_system_rule linux_world full_self init_state). reflexivity.
Defined.

(** On the sample machine the two actions are the video search and the
    restart command. *)
Example play_restart_trace :
  trace (snd (VirtualAssistant.process_command linux_world full_self (VStr "play restart") init_state))
  = [PlayOnYt "restart"; OsSystem "sudo shutdown -r now"].
Proof. vm_compute. reflexivity. Qed.

(** A command the browser chain has served and no system rule matches
    still gets the default response. *)
Example open_youtube_trace :
  trace (snd (VirtualAssistant.process_command linux_world full_self (VStr "open youtube") init_state))
  = [WebOpen "youtube.com"; Sentiment "open youtube";
     Speak "I'm not sure how to respond to that, but I'm here to help!"].
Proof. vm_compute. reflexivity. Qed.

(* ===================================================================== *)
(** ** The farewell *)
(* ===================================================================== *)

(** C6 (counterexample). "bye" matches the farewell rule and returns
    [False], but the only turn appended is the user's; "bye;" matches it
    too and is rejected for its semicolon, returning [True]. *)
Lemma farewell_claim_fails :
  farewell (normalize "bye") = true
  /\ ~ farewell_claim linux_world full_self "bye" init_state
  /\ farewell (normalize "bye;") = true
  /\ ~ farewell_claim linux_world full_self "bye;" init_state.
Proof.
  split; [reflexivity |]. split.
  - intros [_ H]. vm_compute in H. discriminate H.
  - split; [reflexivity |]. intros [H _]. vm_compute in H. discriminate H.
Qed.

(** C6 (amended). An input whose normalized form matches the farewell
    rule and holds no disallowed character makes [process_command]
    return [False]; the farewell is spoken once, and the one turn
    appended to the history is the user turn with the normalized text. *)
Theorem farewell_returns_false (w : World) (self : Self) (raw : string) (s : State) :
  farewell (normalize raw) = true ->
  ~ contains_disallowed (normalize raw) ->
  VirtualAssistant.process_command w self (VStr raw) s
  = (Ret false,
     set_trace (trace s ++ [Speak "Goodbye! Have a great day!"])
       (set_history
          (append_turn (conversation_history s)
             {| text := normalize raw; speaker := "user";
                timestamp := datetime_now w (clock_reads s) |})
          (set_clock_reads (S (clock_reads s)) s))).
Proof.
  intros Hf Hd.
  assert (Hne : raw <> EmptyString) by (intros ->; discriminate Hf).
  assert (Hd' : PyStr.any_char dangerous (normalize raw) = false).
  { destruct (PyStr.any_char dangerous (normalize raw)) eqn:E; [| reflexivity].
    apply any_char_contains in E. contradiction. }
  rewrite process_command_str by exact Hne.
  unfold dispatch. rewrite Hd', Hf. unfold bind at 1.
  rewrite update_conversation_history_spec. reflexivity.
Qed.

Lemma farewell_returns_false_witness :
  farewell (normalize " Goodbye Jerry ") = true
  /\ ~ contains_disallowed (normalize " Goodbye Jerry ")
  /\ VirtualAssistant.process_command linux_world full_self (VStr " Goodbye Jerry ") init_state
     = (Ret false,
        set_trace [Speak "Goodbye! Have a great day!"]
          (set_history [{| text := "goodbye jerry"; speaker := "user";
                           timestamp := "2024-01-01T00:00:00" |}]
             (set_clock_reads 1 init_state))).
Proof.
  assert (Hf : farewell (normalize " Goodbye Jerry ") = true) by reflexivity.
  assert (Hd : ~ contains_disallowed (normalize " Goodbye Jerry ")).
  { apply not_disallowed_by_computation. vm_compute. reflexivity. }
  split; [exact Hf |]. split; [exact Hd |].
  rewrite (farewell_returns_false linux_world full_self " Goodbye Jerry " init_state Hf Hd).
  vm_compute. reflexivity.
Defined.

(* ===================================================================== *)
(** ** Voices *)
(* ===================================================================== *)

(** The Windows enumeration has a catalog of at least one voice whatever
    the registry holds. *)
Lemma windows_voices_not_empty (w : World) : PlatformUtils._get_windows_voices w <> [].
Proof.
  unfold PlatformUtils._get_windows_voices.
  destruct (negb (PlatformUtils.is_windows w)); [discriminate |].
  destruct (winreg_voice_tokens w) as [[| k keys] |]; discriminate.
Qed.

(** [get_default_voice] never raises: it is the first voice of the
    platform's catalog, or the empty string when the catalog is empty. *)
Lemma get_default_voice_head (w : World) :
  PlatformUtils.get_default_voice w
  = match platform_voices w with voice :: _ => voice | [] => EmptyString end.
Proof.
  unfold PlatformUtils.get_default_voice, platform_voices.
  destruct (PlatformUtils.is_windows w); [| destruct (PlatformUtils.is_mac w)];
    match goal with |- context [index ?l 0] => destruct l end; reflexivity.
Qed.

(** When the voice-listing command cannot be run, the Linux and macOS
    enumerations do fall back to their one default voice. *)
Lemma voices_fallback_when_command_fails (w : World) :
  (espeak_stdout w = None -> PlatformUtils._get_linux_voices w = ["default"])
  /\ (say_stdout w = None ->
      PlatformUtils._get_mac_voices w = ["com.apple.speech.synthesis.voice.samantha"]).
Proof.
  unfold PlatformUtils._get_linux_voices, PlatformUtils._get_mac_voices.
  split; intros ->; reflexivity.
Qed.

Lemma filter_all_empty (lines : list string) :
  Forall (fun line => line = EmptyString) lines ->
  filter (fun line => PyStr.truthy line = true) lines = [].
Proof.
  induction 1 as [| line lines -> _ IH]; [reflexivity |].
  rewrite filter_cons. cbn. destruct (decide (false = true)); [discriminate | exact IH].
Qed.

(** C8 (what the code does instead). When [espeak --voices] runs and
    prints no voice after its header line, the Linux enumeration returns
    the empty catalog, not the fallback; the default voice is then the
    empty string, through the handler of the [IndexError]. *)
Theorem linux_voices_empty_catalog (w : World) (stdout : string) :
  espeak_stdout w = Some stdout ->
  Forall (fun line => line = EmptyString) (tail (PyStr.split_on PyStr.newline stdout)) ->
  PlatformUtils._get_linux_voices w = []
  /\ (PlatformUtils.is_windows w = false -> PlatformUtils.is_mac w = false ->
      PlatformUtils.get_default_voice w = EmptyString).
Proof.
  intros Hout Hlines.
  assert (H : PlatformUtils._get_linux_voices w = []).
  { unfold PlatformUtils._get_linux_voices. rewrite Hout.
    rewrite filter_all_empty by exact Hlines. reflexivity. }
  split; [exact H |]. intros Hw Hm.
  unfold PlatformUtils.get_default_voice. rewrite Hw, Hm, H. reflexivity.
Qed.

Lemma linux_voices_empty_catalog_witness :
  PlatformUtils._get_linux_voices linux_world = []
  /\ PlatformUtils.get_default_voice linux_world = EmptyString.
Proof.
  destruct (linux_voices_empty_catalog linux_world
              (String.append "Pty Language Age/Gender VoiceName          File          Other Languages"
                 (String PyStr.newline EmptyString))) as [H1 H2].
  - reflexivity.
  - vm_compute. repeat constructor.
  - split; [exact H1 | apply H2; reflexivity].
Defined.

(* ===================================================================== *)
(** ** Scanning for applications *)
(* ===================================================================== *)

(** C9 (what the code does instead). [platform_utils.py] never imports
    [time], so the first statement of [scan_for_applications] that reads
    the clock raises [NameError]: for every budget, depth and file system
    the scan ends in the exception, with the cache as it was, and returns
    no index. *)
Theorem scan_for_applications_raises (w : World) (max_depth : Z) (timeout : Q) (s : State) :
  PlatformUtils.scan_for_applications w max_depth timeout s = (Raise (NameError "time"), s).
Proof. reflexivity. Qed.

(** *** With the clock in scope

    The lemmas below run the same function body in a namespace that also
    binds [time], which is what the body presumes. *)

Lemma node_nested_ind (P : node -> Prop) :
  (forall name x, P (File name x)) ->
  (forall name r entries, Forall P entries -> P (Dir name r entries)) ->
  forall n, P n.
Proof.
  intros HF HD. fix IH 1. intros [name x | name r entries].
  - apply HF.
  - apply HD. induction entries as [| e es IHes]; constructor; [apply IH | exact IHes].
Qed.

Lemma add_if_absent_mono (k v : string) (paths : gmap string string) :
  paths ⊆ PlatformUtils.add_if_absent k v paths.
Proof.
  unfold PlatformUtils.add_if_absent. destruct (paths !! k) eqn:E; [reflexivity |].
  now apply insert_subseteq.
Qed.

(** A fold whose every step only adds entries only adds entries. *)
Lemma fold_left_mono {A} (f : gmap string string -> A -> gmap string string) (l : list A) :
  (forall paths x, paths ⊆ f paths x) ->
  forall paths, paths ⊆ fold_left f l paths.
Proof.
  intros Hf. induction l as [| x l IH]; intros paths; cbn; [reflexivity |].
  transitivity (f paths x); [apply Hf | apply IH].
Qed.

Lemma scan_platform_directory_mono (w : World) (dirpath : string) (directory : option node)
  (paths : gmap string string) :
  paths ⊆ PlatformUtils.scan_platform_directory w dirpath directory paths.
Proof.
  unfold PlatformUtils.scan_platform_directory, PlatformUtils._scan_windows_directory,
    PlatformUtils._scan_mac_directory, PlatformUtils._scan_linux_directory.
  destruct (PlatformUtils.is_windows w); [| destruct (PlatformUtils.is_mac w)].
  - apply fold_left_mono. intros p [path e].
    destruct (negb (is_file e)); [reflexivity | apply add_if_absent_mono].
  - apply fold_left_mono. intros p [path e].
    destruct (negb (is_dir e)); [reflexivity | apply add_if_absent_mono].
  - destruct (PlatformUtils.iterdir directory); [| reflexivity].
    apply fold_left_mono. intros p [name [] | name r es];
      first [reflexivity | apply add_if_absent_mono].
Qed.

Lemma scan_node_mono (w : World) (max_depth : Z) (n : node) :
  forall (dirpath : string) (paths : gmap string string) (depth : Z),
    paths ⊆ PlatformUtils.scan_node w dirpath n paths depth max_depth.
Proof.
  induction n as [name x | name r entries IH] using node_nested_ind;
    intros dirpath paths depth.
  - cbn. destruct (depth >? max_depth)%Z; [reflexivity |].
    destruct (depth <? max_depth)%Z; apply scan_platform_directory_mono.
  - cbn [PlatformUtils.scan_node]. destruct (depth >? max_depth)%Z; [reflexivity |].
    transitivity (PlatformUtils.scan_platform_directory w dirpath (Some (Dir name r entries)) paths);
      [apply scan_platform_directory_mono |].
    generalize (PlatformUtils.scan_platform_directory w dirpath (Some (Dir name r entries)) paths).
    intros paths1.
    destruct (depth <? max_depth)%Z; [| reflexivity].
    destruct r; [| reflexivity].
    revert paths1. induction IH as [| e es He _ IHes]; intros paths1; [reflexivity |].
    etransitivity; [| apply IHes].
    destruct (is_dir e); [apply He | reflexivity].
Qed.

Lemma _scan_directory_mono (w : World) (dirpath : string) (directory : option node)
  (paths : gmap string string) (depth max_depth : Z) :
  paths ⊆ PlatformUtils._scan_directory w dirpath directory paths depth max_depth.
Proof.
  unfold PlatformUtils._scan_directory.
  destruct directory; [apply scan_node_mono | reflexivity].
Qed.

Lemma scan_prefix_mono (w : World) (max_depth : Z) (locations : list string)
  (paths : gmap string string) :
  paths ⊆ scan_prefix w max_depth locations paths.
Proof. apply fold_left_mono. intros p x. apply _scan_directory_mono. Qed.

Lemma scan_prefix_app (w : World) (max_depth : Z) (l1 l2 : list string)
  (paths : gmap string string) :
  scan_prefix w max_depth (l1 ++ l2) paths
  = scan_prefix w max_depth l2 (scan_prefix w max_depth l1 paths).
Proof. unfold scan_prefix. apply fold_left_app. Qed.

(** With [time] bound, the loop over the search locations returns the
    index of some prefix of them: the deadline is looked at between two
    locations and nowhere else. *)
Lemma scan_locations_prefix (globals : list string) (w : World) (max_depth : Z)
  (timeout start_time : Q) (locations : list string) :
  str_mem "time" globals = true ->
  forall (paths : gmap string string) (s : State),
  exists k s',
    PlatformUtils.scan_locations globals w max_depth timeout start_time locations paths s
    = (Ret (scan_prefix w max_depth (firstn k locations) paths), s')
    /\ conversation_history s' = conversation_history s
    /\ trace s' = trace s.
Proof.
  intros Htime. induction locations as [| location rest IH]; intros paths s.
  - exists 0, s. cbn. auto.
  - cbn [PlatformUtils.scan_locations]. unfold PlatformUtils.load_global. rewrite Htime.
    unfold bind, ret, PlatformUtils.read_time.
    destruct (negb (Qle_bool _ _)).
    + exists 0. eexists. cbn. auto.
    + edestruct IH as (k & s' & Hrun & Hh & Ht). exists (S k), s'.
      rewrite Hrun. cbn. auto.
Qed.

(** C9, had the module imported [time]: any scan, whatever its budget
    and whatever the clock reads, returns an index that is part of the
    index of the scan that no deadline stops, and caches it. *)
Lemma scan_with_time_within_full (globals : list string) (w : World) (max_depth : Z)
  (timeout : Q) (s : State) :
  str_mem "time" globals = true ->
  exists paths s',
    PlatformUtils.scan_for_applications_in globals w max_depth timeout s = (Ret paths, s')
    /\ app_cache s' = paths
    /\ paths ⊆ full_scan w max_depth.
Proof.
  intros Htime. unfold PlatformUtils.scan_for_applications_in, PlatformUtils.load_global.
  rewrite Htime. unfold bind at 1. unfold ret at 1.
  unfold bind at 1. unfold PlatformUtils.read_time at 1.
  set (locations := default [] _). set (s0 := set_time_reads _ _).
  destruct (scan_locations_prefix globals w max_depth timeout (time_time w (time_reads s))
              locations Htime ∅ s0) as (k & s' & Hrun & _ & _).
  unfold bind. rewrite Hrun. eexists. eexists. split; [reflexivity |].
  split; [reflexivity |].
  unfold full_scan. fold locations.
  rewrite <- (firstn_skipn k locations) at 2. rewrite scan_prefix_app.
  apply scan_prefix_mono.
Qed.

(** A budget of zero and a clock that has moved on when the loop first
    looks at it: no location is visited and the index is empty. *)
Lemma scan_with_time_zero_budget (globals : list string) (w : World) (max_depth : Z) (s : State) :
  str_mem "time" globals = true ->
  (time_time w (time_reads s) < time_time w (S (time_reads s)))%Q ->
  assoc (platform_system w) (PlatformUtils.COMMON_APP_LOCATIONS w) <> Some [] ->
  fst (PlatformUtils.scan_for_applications_in globals w max_depth 0 s) = Ret ∅.
Proof.
  intros Htime Hclock Hloc.
  unfold PlatformUtils.scan_for_applications_in, PlatformUtils.load_global.
  rewrite Htime. unfold bind at 1. unfold ret at 1.
  unfold bind at 1. unfold PlatformUtils.read_time at 1.
  destruct (default [] (assoc (platform_system w) (PlatformUtils.COMMON_APP_LOCATIONS w)))
    as [| location rest] eqn:E.
  - reflexivity.
  - cbn [PlatformUtils.scan_locations]. unfold PlatformUtils.load_global. rewrite Htime.
    unfold bind, ret, PlatformUtils.read_time. cbn [time_reads set_time_reads].
    assert (Hb : Qle_bool (time_time w (S (time_reads s)) - time_time w (time_reads s)) 0 = false).
    { destruct (Qle_bool _ _) eqn:Hle; [| reflexivity].
      apply Qle_bool_iff in Hle. exfalso.
      apply (Qlt_not_le _ _ Hclock).
      apply (Qplus_le_l _ _ (- time_time w (time_reads s))).
      rewrite Qplus_opp_r. exact Hle. }
    rewrite Hb. reflexivity.
Qed.

(** On the sample machine, with [time] bound and a budget the clock
    stays within, the scan indexes both search locations; the first
    match of a name wins. *)
Example scan_with_time_sample :
  fst (PlatformUtils.scan_for_applications_in ("time" :: PlatformUtils.module_globals)
         linux_world 3 60 init_state)
  = Ret (<["vlc" := "/opt/vlc"]>
          (<["textedit" := "/usr/bin/tools/TextEdit.sh"]>
            (<["gedit" := "/usr/bin/gedit"]> ∅))).
Proof. vm_compute. reflexivity. Qed.

(* ===================================================================== *)
(** ** Further properties: what a command leaves of the state *)
(* ===================================================================== *)

(** X1. The turn [update_conversation_history] records is the last entry
    of the history afterwards, so it is never the one evicted; the
    history grows by at most one entry and, once it holds ten or more,
    does not grow. *)
Theorem newest_turn_is_kept (w : World) (t sp : string) (s : State) :
  let h' := conversation_history (snd (VirtualAssistant.update_conversation_history w t sp s)) in
  last h' = Some {| text := t; speaker := sp; timestamp := datetime_now w (clock_reads s) |}
  /\ length h' <= S (length (conversation_history s))
  /\ (10 <= length (conversation_history s) -> length h' = length (conversation_history s)).
Proof.
  rewrite update_conversation_history_spec. cbn [snd set_history conversation_history].
  unfold append_turn, max_history_length. cbn zeta.
  set (turn := {| text := t; speaker := sp; timestamp := _ |}).
  destruct (Nat.ltb_spec 10 (length (conversation_history s ++ [turn]))) as [Hlt | Hle].
  - rewrite length_app in Hlt. cbn [length] in Hlt.
    destruct (conversation_history s) as [| x h]; cbn [length] in *; [lia |].
    change (tail ((x :: h) ++ [turn])) with (h ++ [turn]).
    rewrite last_snoc, length_app. cbn [length]. repeat split; lia.
  - rewrite length_app in Hle. cbn [length] in Hle.
    rewrite last_snoc, length_app. cbn [length]. repeat split; lia.
Qed.

Lemma extends_refl (s : State) : extends s s.
Proof. repeat split. exists []. now rewrite app_nil_r. Qed.

Lemma extends_trans (s1 s2 s3 : State) : extends s1 s2 -> extends s2 s3 -> extends s1 s3.
Proof.
  intros (Hh1 & Hc1 & Hk1 & evs1 & Ht1) (Hh2 & Hc2 & Hk2 & evs2 & Ht2).
  repeat split; try congruence.
  exists (evs1 ++ evs2). now rewrite Ht2, Ht1, app_assoc.
Qed.

Lemma frames_ret {A} (a : A) : frames (ret a).
Proof. intros s. apply extends_refl. Qed.

Lemma frames_raise {A} (e : exn) : frames (@raise State A e).
Proof. intros s. apply extends_refl. Qed.

Lemma frames_get : frames (@get State).
Proof. intros s. apply extends_refl. Qed.

Lemma frames_bind {A B} (m : M State A) (k : A -> M State B) :
  frames m -> (forall a, frames (k a)) -> frames (bind m k).
Proof.
  intros Hm Hk s. unfold bind. specialize (Hm s).
  destruct (m s) as [[a | e] s1]; cbn [snd] in *; [| exact Hm].
  eapply extends_trans; [exact Hm | apply Hk].
Qed.

Lemma frames_emit (e : event) : frames (emit e).
Proof. intros s. cbn. repeat split. now exists [e]. Qed.

Lemma frames_set_analyzer (a : analyzer) : frames (modify (set_analyzer a)).
Proof. intros s. cbn. repeat split. exists []. now rewrite app_nil_r. Qed.

Lemma frames_random_pick (w : World) (options : list string) :
  frames (VirtualAssistant.random_pick w options).
Proof. intros s. cbn. repeat split. exists []. now rewrite app_nil_r. Qed.

Lemma frames_lift_result {A} (r : result A) : frames (lift_result r).
Proof. destruct r; [apply frames_ret | apply frames_raise]. Qed.

Create HintDb frames.
#[local] Hint Resolve frames_ret frames_raise frames_get frames_emit frames_set_analyzer
  frames_random_pick frames_lift_result : frames.

(** Split a computation along its binds, conditionals and matches, and
    close the leaves with the [frames] hints. *)
Ltac frames_steps :=
  repeat first
    [ progress auto with frames
    | apply frames_bind; [| intros ?]
    | match goal with
      | |- frames (if ?b then _ else _) => destruct b
      | |- frames (match ?x with _ => _ end) => destruct x
      | |- frames (let '(_, _) := ?x in _) => destruct x
      end ].

Lemma frames_shutdown (w : World) (receiver : pyval) (pos : list pyval) (kw : bindings) :
  frames (SystemManager.shutdown w receiver pos kw).
Proof.
  unfold SystemManager.shutdown, SystemManager.shutdown_body, SystemManager.os_system.
  frames_steps.
Qed.

Lemma frames_system_manager (w : World) :
  frames (SystemManager.cancel_shutdown w) /\ frames (SystemManager.restart w)
  /\ frames (SystemManager.sleep w) /\ forall path, frames (SystemManager.open_app w path).
Proof.
  unfold SystemManager.cancel_shutdown, SystemManager.restart, SystemManager.sleep,
    SystemManager.open_app, SystemManager.os_system.
  split; [| split; [| split]]; intros; frames_steps.
Qed.

Lemma scan_raises_at_clock (w : World) (max_depth : Z) (timeout : Q) (s : State) :
  PlatformUtils.scan_for_applications w max_depth timeout s = (Raise (NameError "time"), s).
Proof. reflexivity. Qed.

Lemma frames_find_application (w : World) (name : string) :
  frames (PlatformUtils.find_application w name).
Proof.
  intros s. unfold PlatformUtils.find_application, bind, get.
  destruct (app_cache s !! PyStr.lower name); cbn [snd].
  - apply extends_refl.
  - rewrite scan_raises_at_clock. apply extends_refl.
Qed.

Lemma frames_managers (w : World) :
  (forall key city, frames (WeatherManager.get_weather w key city))
  /\ (forall key, frames (NewsManager.get_news w key))
  /\ frames (LocationManager.get_location w)
  /\ (forall query, frames (WikiManager.search w query))
  /\ frames (ScreenshotManager.take_screenshot w).
Proof.
  unfold WeatherManager.get_weather, NewsManager.get_news, LocationManager.get_location,
    WikiManager.search, ScreenshotManager.take_screenshot.
  split; [| split; [| split; [| split]]]; intros; frames_steps.
Qed.

Lemma frames_generate_response (w : World) (self : Self) (text0 : string) :
  frames (VirtualAssistant.generate_response w self text0).
Proof.
  unfold VirtualAssistant.generate_response, VirtualAssistant.analyze_sentiment,
    VirtualAssistant._ensure_nlp_loaded.
  frames_steps.
Qed.

Lemma frames_speak_headlines (headlines : list string) :
  forall i, frames (VirtualAssistant.speak_headlines i headlines).
Proof.
  induction headlines as [| h rest IH]; intros i; cbn [VirtualAssistant.speak_headlines].
  - apply frames_ret.
  - unfold VirtualAssistant.speak. apply frames_bind; [apply frames_emit | intros _; apply IH].
Qed.

Lemma frames_getitem (d : list (string * string)) (key : string) :
  frames (VirtualAssistant.getitem d key).
Proof. unfold VirtualAssistant.getitem. frames_steps. Qed.

Lemma frames_browser_commands (self : Self) (command : string) :
  frames (VirtualAssistant.browser_commands self command).
Proof.
  unfold VirtualAssistant.browser_commands, VirtualAssistant.speak, BrowserManager.open_url,
    BrowserManager.search_youtube, BrowserManager.search_google.
  frames_steps.
Qed.

Lemma frames_system_commands (w : World) (self : Self) (command : string) :
  frames (VirtualAssistant.system_commands w self command).
Proof.
  destruct (frames_system_manager w) as (Hc & Hr & Hs & Ho).
  destruct (frames_managers w) as (Hw & Hn & Hl & Hk & Hsc).
  pose proof (frames_shutdown w) as Hsh.
  pose proof (frames_find_application w) as Hf.
  pose proof (frames_generate_response w self) as Hg.
  pose proof frames_speak_headlines as Hh.
  pose proof frames_getitem as Hgi.
  unfold VirtualAssistant.system_commands, VirtualAssistant.speak.
  repeat first
    [ progress auto with frames
    | apply frames_bind; [| intros ?]
    | match goal with
      | |- frames (if ?b then _ else _) => destruct b
      | |- frames (match ?x with _ => _ end) => destruct x
      end ].
Qed.



(* ===================================================================== *)
(** ** Further properties: normalizing *)
(* ===================================================================== *)

Lemma lower_char_idem (c : ascii) : PyStr.lower_char (PyStr.lower_char c) = PyStr.lower_char c.
Proof. each_ascii c; vm_compute; reflexivity. Qed.

Lemma is_space_lower_char (c : ascii) : PyStr.is_space (PyStr.lower_char c) = PyStr.is_space c.
Proof. each_ascii c; vm_compute; reflexivity. Qed.

Lemma lower_idem (s : string) : PyStr.lower (PyStr.lower s) = PyStr.lower s.
Proof. induction s as [| c s IH]; cbn; [reflexivity | now rewrite lower_char_idem, IH]. Qed.

Lemma lower_lstrip (s : string) : PyStr.lower (PyStr.lstrip s) = PyStr.lstrip (PyStr.lower s).
Proof.
  induction s as [| c s IH]; cbn; [reflexivity |].
  rewrite is_space_lower_char. destruct (PyStr.is_space c); [exact IH | reflexivity].
Qed.

Lemma lower_rstrip (s : string) : PyStr.lower (PyStr.rstrip s) = PyStr.rstrip (PyStr.lower s).
Proof.
  induction s as [| c s IH]; cbn; [reflexivity |].
  rewrite <- IH, is_space_lower_char.
  destruct (PyStr.rstrip s) as [| d r]; cbn; [destruct (PyStr.is_space c) |]; reflexivity.
Qed.

Lemma rstrip_idem (s : string) : PyStr.rstrip (PyStr.rstrip s) = PyStr.rstrip s.
Proof.
  induction s as [| c s IH]; cbn; [reflexivity |].
  destruct (PyStr.rstrip s) as [| d r] eqn:E.
  - destruct (PyStr.is_space c) eqn:Hc; cbn; [reflexivity | now rewrite Hc].
  - cbn [PyStr.rstrip] in *. now rewrite IH.
Qed.

(** What [lstrip] returns is empty or starts with a character that is no
    space; [rstrip] keeps such a first character. *)
Lemma lstrip_head (s : string) :
  match PyStr.lstrip s with
  | EmptyString => True
  | String c _ => PyStr.is_space c = false
  end.
Proof.
  induction s as [| c s IH]; cbn; [exact I |].
  destruct (PyStr.is_space c) eqn:Hc; [exact IH | exact Hc].
Qed.

Lemma rstrip_head (c : ascii) (s : string) :
  PyStr.is_space c = false -> exists r, PyStr.rstrip (String c s) = String c r.
Proof.
  intros Hc. cbn. destruct (PyStr.rstrip s); rewrite ?Hc; eauto.
Qed.

Lemma strip_idem (s : string) : PyStr.strip (PyStr.strip s) = PyStr.strip s.
Proof.
  unfold PyStr.strip. pose proof (lstrip_head s) as Hhead.
  destruct (PyStr.lstrip s) as [| c t]; [reflexivity |].
  destruct (rstrip_head c t Hhead) as (r & Hr). rewrite Hr.
  cbn [PyStr.lstrip]. rewrite Hhead, <- Hr. apply rstrip_idem.
Qed.

Lemma normalize_idem (raw : string) : normalize (normalize raw) = normalize raw.
Proof.
  unfold normalize, PyStr.strip.
  rewrite lower_rstrip, lower_lstrip, lower_idem.
  apply (strip_idem (PyStr.lower raw)).
Qed.

(** X3. A command is read without regard to case and to the white space
    around it: [process_command] does to [raw] exactly what it does to
    the lower-cased, trimmed [raw], provided that form is not empty. *)
Theorem command_read_normalized (w : World) (self : Self) (raw : string) (s : State) :
  normalize raw <> EmptyString ->
  VirtualAssistant.process_command w self (VStr raw) s
  = VirtualAssistant.process_command w self (VStr (normalize raw)) s.
Proof.
  intros Hn.
  assert (Hraw : raw <> EmptyString) by (intros ->; apply Hn; reflexivity).
  rewrite !process_command_str by assumption.
  now rewrite normalize_idem.
Qed.

Lemma command_read_normalized_witness :
  normalize "  Play RESTART " <> EmptyString
  /\ VirtualAssistant.process_command linux_world full_self (VStr "  Play RESTART ") init_state
     = VirtualAssistant.process_command linux_world full_self (VStr "play restart") init_state.
Proof.
  assert (H : normalize "  Play RESTART " <> EmptyString) by discriminate.
  split; [exact H |].
  exact (command_read_normalized linux_world full_self "  Play RESTART " init_state H).
Defined.

(* ===================================================================== *)
(** ** Further properties: the default responder *)
(* ===================================================================== *)

Lemma spoken_app (a b : list event) : spoken (a ++ b) = spoken a ++ spoken b.
Proof.
  induction a as [| e a IH]; [reflexivity |].
  destruct e; cbn; rewrite ?IH; reflexivity.
Qed.

Lemma random_pick_in (w : World) (options : list string) (s : State) :
  options <> [] ->
  exists r, VirtualAssistant.random_pick w options s
            = (Ret r, set_random_draws (S (random_draws s)) s)
            /\ In r options.
Proof.
  intros Hne. eexists. split; [reflexivity |].
  apply nth_In. apply Nat.mod_upper_bound.
  destruct options; [congruence | cbn; lia].
Qed.

(** The default responder returns one of its seven sentences and never
    raises; all it adds to the trace is the call of the sentiment
    pipeline, when that is loaded. *)
Lemma generate_response_canned (w : World) (self : Self) (text0 : string) (s : State) :
  exists r s' evs,
    VirtualAssistant.generate_response w self text0 s = (Ret r, s')
    /\ In r canned_responses
    /\ conversation_history s' = conversation_history s
    /\ trace s' = trace s ++ evs
    /\ (evs = [] \/ evs = [Sentiment text0]).
Proof.
  assert (Han : exists label s1 evs,
             VirtualAssistant.analyze_sentiment w self text0 s = (Ret label, s1)
             /\ conversation_history s1 = conversation_history s
             /\ trace s1 = trace s ++ evs
             /\ (evs = [] \/ evs = [Sentiment text0])).
  { unfold VirtualAssistant.analyze_sentiment, VirtualAssistant._ensure_nlp_loaded, bind, get,
      modify, ret.
    destruct (negb (VirtualAssistant.NLP_AVAILABLE self)); cbn;
      [| destruct (sentiment_analyzer s) eqn:Ea; cbn; rewrite ?Ea; cbn;
         [destruct (pipeline_loads w); cbn | |]];
      eexists; eexists;
      first [ exists []; split; [reflexivity |]; cbn; rewrite app_nil_r; now auto
            | exists [Sentiment text0]; split; [reflexivity |]; cbn; now auto ]. }
  destruct Han as (label & s1 & evs & Hrun & Hh & Ht & Hevs).
  unfold VirtualAssistant.generate_response. unfold bind at 1. rewrite Hrun.
  destruct (String.eqb label "POSITIVE");
    [| destruct (String.eqb label "NEGATIVE")].
  - edestruct (random_pick_in w ["That sounds great!"; "I'm glad to hear that."; "Wonderful!"] s1)
      as (r & Hr & Hin); [discriminate |].
    rewrite Hr. exists r. eexists. exists evs. split; [reflexivity |].
    split; [| cbn; now auto].
    unfold canned_responses. cbn in Hin |- *. intuition.
  - edestruct (random_pick_in w ["I'm sorry you're feeling that way."; "That sounds challenging.";
                                 "I hope things get better."] s1)
      as (r & Hr & Hin); [discriminate |].
    rewrite Hr. exists r. eexists. exists evs. split; [reflexivity |].
    split; [| cbn; now auto].
    unfold canned_responses. cbn in Hin |- *. intuition.
  - eexists. eexists. exists evs. split; [reflexivity |].
    split; [| now auto].
    unfold canned_responses. cbn. intuition.
Qed.

Lemma none_in_cons (k : string) (ks : list string) (command : string) :
  none_in (k :: ks) command = true
  <-> PyStr.str_in k command = false /\ none_in ks command = true.
Proof.
  unfold none_in. cbn [forallb]. rewrite andb_true_iff, negb_true_iff. reflexivity.
Qed.

Lemma no_shutdown_no_cancel (command : string) :
  PyStr.str_in "shutdown" command = false -> PyStr.str_in "cancel shutdown" command = false.
Proof.
  intros H. destruct (PyStr.str_in "cancel shutdown" command) eqn:E; [| reflexivity].
  apply str_in_cancel_shutdown in E. congruence.
Qed.

(** Turn a hypothesis [none_in [k1; ...; kn] c = true] into the facts
    [str_in ki c = false] and rewrite the goal with them. *)
Ltac use_none_in H :=
  repeat (apply none_in_cons in H;
          let Hk := fresh "Hk" in
          destruct H as [Hk H];
          try rewrite (no_shutdown_no_cancel _ Hk);
          rewrite ?Hk);
  clear H.

Lemma browser_commands_none (self : Self) (command : string) (s : State) :
  no_browser_rule command = true ->
  VirtualAssistant.browser_commands self command s = (Ret tt, s).
Proof.
  unfold no_browser_rule. intros H. apply andb_prop in H as [H Hsg].
  apply negb_true_iff in Hsg.
  unfold VirtualAssistant.browser_commands. use_none_in H. rewrite Hsg. reflexivity.
Qed.

Lemma system_commands_default (w : World) (self : Self) (command : string) (s : State) :
  none_in system_keywords command = true ->
  VirtualAssistant.system_commands w self command s
  = (let* response := VirtualAssistant.generate_response w self command in
     VirtualAssistant.speak response) s.
Proof.
  unfold system_keywords. intros H.
  unfold VirtualAssistant.system_commands. use_none_in H. reflexivity.
Qed.

(** An accepted command that no rule matches. *)
Lemma dispatch_default (w : World) (self : Self) (command : string) (s : State) :
  PyStr.any_char dangerous command = false ->
  farewell command = false ->
  no_browser_rule command = true ->
  none_in system_keywords command = true ->
  exists response s' evs,
    dispatch w self command s = (Ret true, s')
    /\ In response canned_responses
    /\ conversation_history s'
       = append_turn (conversation_history s) (user_turn w s command)
    /\ trace s' = trace s ++ evs ++ [Speak response]
    /\ (evs = [] \/ evs = [Sentiment command]).
Proof.
  intros Hd Hf Hb Hs. unfold dispatch. rewrite Hd, Hf. unfold bind at 1.
  rewrite update_conversation_history_spec. set (s1 := set_history _ _).
  unfold bind at 1. rewrite browser_commands_none by exact Hb.
  unfold bind at 1. rewrite system_commands_default by exact Hs.
  unfold bind at 1.
  destruct (generate_response_canned w self command s1)
    as (r & s2 & evs & Hrun & Hin & Hh & Ht & Hevs).
  rewrite Hrun. exists r. eexists. exists evs. split; [reflexivity |].
  split; [exact Hin |]. cbn.
  split; [rewrite Hh; reflexivity |].
  split; [rewrite Ht, <- app_assoc; reflexivity | exact Hevs].
Qed.

(** X4. A command that is only white space is not rejected: its empty
    normalized text is recorded as a user turn and the default responder
    answers it with one of its sentences; [process_command] returns
    [True]. *)
Theorem blank_command_answered (w : World) (self : Self) (raw : string) (s : State) :
  raw <> EmptyString ->
  normalize raw = EmptyString ->
  exists response s' evs,
    VirtualAssistant.process_command w self (VStr raw) s = (Ret true, s')
    /\ In response canned_responses
    /\ conversation_history s'
       = append_turn (conversation_history s) (user_turn w s EmptyString)
    /\ trace s' = trace s ++ evs ++ [Speak response]
    /\ (evs = [] \/ evs = [Sentiment EmptyString]).
Proof.
  intros Hne Hn. rewrite process_command_str by exact Hne. rewrite Hn.
  apply dispatch_default; reflexivity.
Qed.

Lemma blank_command_answered_witness :
  exists response s',
    VirtualAssistant.process_command linux_world full_self (VStr "   ") init_state
    = (Ret true, s')
    /\ map text (conversation_history s') = [EmptyString]
    /\ spoken (trace s') = [response].
Proof.
  destruct (blank_command_answered linux_world full_self "   " init_state)
    as (r & s' & evs & Hrun & _ & Hh & Ht & Hevs); [discriminate | reflexivity |].
  exists r, s'. split; [exact Hrun |]. split.
  - rewrite Hh. reflexivity.
  - rewrite Ht. destruct Hevs as [-> | ->]; reflexivity.
Defined.

(** X5. An accepted command that is no farewell and that no rule of the
    browser chain or of the system chain matches is recorded as a user
    turn and answered with exactly one utterance, one of the seven
    sentences of the default responder; nothing else leaves the program
    but the call of the sentiment pipeline. *)
Theorem unmatched_command_answered (w : World) (self : Self) (raw : string) (s : State) :
  raw <> EmptyString ->
  ~ contains_disallowed (normalize raw) ->
  farewell (normalize raw) = false ->
  no_browser_rule (normalize raw) = true ->
  none_in system_keywords (normalize raw) = true ->
  exists response s' evs,
    VirtualAssistant.process_command w self (VStr raw) s = (Ret true, s')
    /\ In response canned_responses
    /\ conversation_history s'
       = append_turn (conversation_history s) (user_turn w s (normalize raw))
    /\ trace s' = trace s ++ evs ++ [Speak response]
    /\ (evs = [] \/ evs = [Sentiment (normalize raw)]).
Proof.
  intros Hne Hd Hf Hb Hs. rewrite process_command_str by exact Hne.
  apply dispatch_default; try assumption.
  destruct (PyStr.any_char dangerous (normalize raw)) eqn:E; [| reflexivity].
  apply any_char_contains in E. contradiction.
Qed.

Lemma unmatched_command_answered_witness :
  exists response s',
    VirtualAssistant.process_command linux_world full_self (VStr "Hello there") init_state
    = (Ret true, s')
    /\ In response canned_responses.
Proof.
  destruct (unmatched_command_answered linux_world full_self "Hello there" init_state)
    as (r & s' & evs & Hrun & Hin & _); try reflexivity; try discriminate.
  - apply not_disallowed_by_computation. vm_compute. reflexivity.
  - exists r, s'. split; assumption.
Defined.

(** X6. Without the [transformers] package the default responder always
    gives its neutral sentence: the sentiment pipeline is not called, no
    random draw is made and nothing is added to the trace. *)
Theorem no_transformers_neutral (w : World) (self : Self) (text0 : string) (s : State) :
  str_mem "transformers" (optional_missing self) = true ->
  VirtualAssistant.generate_response w self text0 s
  = (Ret neutral_response, set_analyzer Fallback s).
Proof.
  intros H. unfold VirtualAssistant.generate_response, VirtualAssistant.analyze_sentiment,
    VirtualAssistant._ensure_nlp_loaded, VirtualAssistant.NLP_AVAILABLE.
  rewrite H. reflexivity.
Qed.

Lemma no_transformers_neutral_witness :
  fst (VirtualAssistant.generate_response linux_world
         {| missing_deps := []; optional_missing := ["transformers"]; config_name := "Friday";
            weather_api_key := None; news_api_key := None |}
         "what a wonderful day" init_state)
  = Ret neutral_response.
Proof.
  rewrite (no_transformers_neutral linux_world _ "what a wonderful day" init_state);
    reflexivity.
Defined.

(** X7. Loading the sentiment pipeline is tried once: when the first
    load fails, the fallback analyzer is kept, and every later call of
    the default responder, in whatever world, gives the neutral sentence
    without calling the pipeline or trying to load it again. *)
Theorem failed_pipeline_load_not_retried (w w' : World) (self : Self)
  (text0 text1 : string) (s : State) :
  sentiment_analyzer s = NotLoaded ->
  str_mem "transformers" (optional_missing self) = false ->
  pipeline_loads w = false ->
  let s1 := snd (VirtualAssistant.generate_response w self text0 s) in
  sentiment_analyzer s1 = Fallback
  /\ VirtualAssistant.generate_response w' self text1 s1 = (Ret neutral_response, s1).
Proof.
  intros Hs Ht Hl. cbn zeta.
  unfold VirtualAssistant.generate_response, VirtualAssistant.analyze_sentiment,
    VirtualAssistant._ensure_nlp_loaded, VirtualAssistant.NLP_AVAILABLE.
  rewrite Ht. cbn [negb]. unfold bind, get, modify, ret.
  rewrite Hs, Hl. cbn. auto.
Qed.

Lemma failed_pipeline_load_not_retried_witness :
  VirtualAssistant.generate_response linux_world full_self "great"
    (snd (VirtualAssistant.generate_response offline_world full_self "hello" init_state))
  = (Ret neutral_response,
     snd (VirtualAssistant.generate_response offline_world full_self "hello" init_state)).
Proof.
  apply (failed_pipeline_load_not_retried offline_world linux_world full_self "hello" "great"
           init_state); reflexivity.
Defined.

(* ===================================================================== *)
(** ** Further properties: the weather, news and location rules *)
(* ===================================================================== *)

Lemma hasattr_weather (self : Self) :
  VirtualAssistant.hasattr self "weather" = negb (str_mem "pywhatkit" (missing_deps self)).
Proof. reflexivity. Qed.

Lemma system_commands_weather (w : World) (self : Self) (command : string) (s : State) :
  none_in ["shutdown"; "restart"; "sleep"; "notepad"; "text editor"] command = true ->
  PyStr.str_in "weather" command = true ->
  VirtualAssistant.system_commands w self command s
  = (if VirtualAssistant.hasattr self "weather"
     then let* result := WeatherManager.get_weather w (weather_api_key self) "London" in
          VirtualAssistant.speak result
     else VirtualAssistant.speak "Weather features are unavailable due to missing dependencies.") s.
Proof.
  intros H Hw. unfold VirtualAssistant.system_commands. use_none_in H. rewrite Hw. reflexivity.
Qed.

Lemma http_requests_app (a b : list event) :
  http_requests (a ++ b) = http_requests a ++ http_requests b.
Proof.
  induction a as [| e a IH]; [reflexivity |].
  destruct e; cbn; rewrite ?IH; reflexivity.
Qed.

Lemma browser_events_http (evs : list event) :
  Forall browser_event evs -> http_requests evs = [].
Proof.
  induction 1 as [| e evs He _ IH]; [reflexivity |].
  destruct e; cbn in *; try contradiction; exact IH.
Qed.

(** An accepted command that is no farewell: the user turn, then the
    browser chain, then the system chain. *)
Lemma dispatch_chains (w : World) (self : Self) (command : string) (s : State) :
  PyStr.any_char dangerous command = false ->
  farewell command = false ->
  exists evs s1,
    Forall browser_event evs
    /\ trace s1 = trace s ++ evs
    /\ dispatch w self command s
       = (VirtualAssistant.system_commands w self command >> ret true) s1.
Proof.
  intros Hd Hf. unfold dispatch. rewrite Hd, Hf. unfold bind at 1.
  rewrite update_conversation_history_spec. set (s0 := set_history _ _).
  destruct (browser_commands_events self command s0) as (evs & Hb & Hevs).
  exists evs, (set_trace (trace s0 ++ evs) s0). split; [exact Hevs |].
  unfold bind at 1. rewrite Hb. split; reflexivity.
Qed.

Ltac not_dangerous H :=
  match type of H with
  | ~ contains_disallowed ?c =>
      let E := fresh "E" in
      destruct (PyStr.any_char dangerous c) eqn:E;
      [apply any_char_contains in E; contradiction | reflexivity]
  end.

(** X8. When the weather manager is unavailable ([pywhatkit] missing), a
    command that reaches the weather rule gets the fixed sentence about
    the missing dependency; [process_command] returns [True] and sends no
    request. *)
Theorem weather_unavailable (w : World) (self : Self) (raw : string) (s : State) :
  raw <> EmptyString ->
  ~ contains_disallowed (normalize raw) ->
  farewell (normalize raw) = false ->
  none_in ["shutdown"; "restart"; "sleep"; "notepad"; "text editor"] (normalize raw) = true ->
  PyStr.str_in "weather" (normalize raw) = true ->
  str_mem "pywhatkit" (missing_deps self) = true ->
  exists evs s',
    VirtualAssistant.process_command w self (VStr raw) s = (Ret true, s')
    /\ trace s'
       = trace s ++ evs
         ++ [Speak "Weather features are unavailable due to missing dependencies."]
    /\ http_requests evs = [].
Proof.
  intros Hne Hd Hf Hn Hw Hdep. rewrite process_command_str by exact Hne.
  destruct (dispatch_chains w self (normalize raw) s) as (evs & s1 & Hevs & Ht & ->);
    [not_dangerous Hd | exact Hf |].
  unfold bind at 1. rewrite system_commands_weather by assumption.
  rewrite hasattr_weather, Hdep. cbn [negb].
  exists evs. eexists. split; [reflexivity |]. cbn.
  split; [rewrite Ht, <- app_assoc; reflexivity | now apply browser_events_http].
Qed.

Lemma weather_unavailable_witness :
  exists s',
    VirtualAssistant.process_command linux_world
      {| missing_deps := ["pywhatkit"]; optional_missing := []; config_name := "Friday";
         weather_api_key := Some "key"; news_api_key := None |}
      (VStr "What's the weather like") init_state
    = (Ret true, s')
    /\ spoken (trace s') = ["Weather features are unavailable due to missing dependencies."].
Proof.
  edestruct (weather_unavailable linux_world
               {| missing_deps := ["pywhatkit"]; optional_missing := []; config_name := "Friday";
                  weather_api_key := Some "key"; news_api_key := None |}
               "What's the weather like" init_state)
    as (evs & s' & Hrun & Ht & _); try reflexivity; try discriminate.
  - apply not_disallowed_by_computation. vm_compute. reflexivity.
  - exists s'. split; [exact Hrun |].
    vm_compute in Hrun. injection Hrun as <-. reflexivity.
Defined.

(** With a key, [get_weather] sends one request, for the city it is
    given, and returns a sentence; it never raises. *)
Lemma get_weather_request (w : World) (key city : string) (s : State) :
  key <> EmptyString ->
  exists result,
    WeatherManager.get_weather w (Some key) city s
    = (Ret result, set_trace (trace s ++ [HttpGet (weather_url key city)]) s).
Proof.
  intros Hk. destruct key as [| a k]; [congruence |].
  unfold WeatherManager.get_weather, weather_url. unfold bind. rewrite emit_run.
  destruct (weather_http w _) as [| | | status [[temp desc] |]]; try (eexists; reflexivity);
    repeat match goal with
           | |- context [if ?b then _ else _] => destruct b
           end; eexists; reflexivity.
Qed.



Lemma system_commands_location (w : World) (self : Self) (command : string) (s : State) :
  none_in ["shutdown"; "restart"; "sleep"; "notepad"; "text editor"; "weather"; "news"]
    command = true ->
  PyStr.str_in "where am i" command = true ->
  VirtualAssistant.system_commands w self command s
  = (let* location := LocationManager.get_location w in
     let* city := VirtualAssistant.getitem location "city" in
     let* region := VirtualAssistant.getitem location "region" in
     let* country := VirtualAssistant.getitem location "country" in
     VirtualAssistant.speak
       (String.append "You are in "
          (String.append city (String.append ", "
             (String.append region (String.append ", " country)))))) s.
Proof.
  intros H Hw. unfold VirtualAssistant.system_commands. use_none_in H. rewrite Hw. reflexivity.
Qed.

(** X10. When the location lookup fails, a command that reaches the
    location rule does not get an answer: the dict [get_location] returns
    has only the key "error", so reading its "city" raises [KeyError]
    out of [process_command], after the lookup and before anything is
    spoken by the rule. *)
Theorem location_failure_raises (w : World) (self : Self) (raw msg : string) (s : State) :
  raw <> EmptyString ->
  ~ contains_disallowed (normalize raw) ->
  farewell (normalize raw) = false ->
  none_in ["shutdown"; "restart"; "sleep"; "notepad"; "text editor"; "weather"; "news"]
    (normalize raw) = true ->
  PyStr.str_in "where am i" (normalize raw) = true ->
  location_http w = LocationRaised msg ->
  exists evs s',
    VirtualAssistant.process_command w self (VStr raw) s = (Raise (KeyError "city"), s')
    /\ trace s' = trace s ++ evs ++ [HttpGet "https://api.ipify.org"]
    /\ Forall browser_event evs.
Proof.
  intros Hne Hd Hf Hn Hw Hloc. rewrite process_command_str by exact Hne.
  destruct (dispatch_chains w self (normalize raw) s) as (evs & s1 & Hevs & Ht & ->);
    [not_dangerous Hd | exact Hf |].
  unfold bind at 1. rewrite system_commands_location by assumption.
  unfold LocationManager.get_location. rewrite Hloc.
  exists evs. eexists. split; [reflexivity |]. cbn.
  split; [rewrite Ht, <- app_assoc; reflexivity | exact Hevs].
Qed.

Lemma location_failure_raises_witness :
  fst (VirtualAssistant.process_command offline_world full_self (VStr "Where am I") init_state)
  = Raise (KeyError "city").
Proof.
  assert (Hd : ~ contains_disallowed (normalize "Where am I")).
  { apply not_disallowed_by_computation. vm_compute. reflexivity. }
  destruct (location_failure_raises offline_world full_self "Where am I" "connection refused"
              init_state ltac:(discriminate) Hd eq_refl eq_refl eq_refl eq_refl)
    as (evs & s' & Hrun & _).
  rewrite Hrun. reflexivity.
Defined.

(** X11. [get_news] never raises and returns at most five headlines;
    unless the reply has status 200 it returns exactly one sentence,
    which says that the news could not be fetched. *)
Theorem news_at_most_five (w : World) (key : option string) (s : State) :
  exists headlines,
    NewsManager.get_news w key s
    = (Ret headlines, set_trace (trace s ++ [HttpGet (news_url key)]) s)
    /\ length headlines <= 5
    /\ ((forall titles, news_http w (news_url key) <> NewsResponse 200 titles) ->
        length headlines = 1).
Proof.
  unfold NewsManager.get_news. fold (news_url key). unfold bind. rewrite emit_run.
  destruct (news_http w (news_url key)) as [msg | status titles] eqn:E.
  - eexists. split; [reflexivity |]. split; [cbn; lia | reflexivity].
  - destruct (Z.eqb_spec status 200) as [-> | Hst].
    + eexists. split; [reflexivity |]. split.
      * rewrite length_take. lia.
      * intros H. exfalso. apply (H titles). reflexivity.
    + eexists. split; [reflexivity |]. split; [cbn; lia | reflexivity].
Qed.

(* ===================================================================== *)
(** ** Further properties: starting and running *)
(* ===================================================================== *)



(** X13. Silence is skipped: the utterances [listen] gives up on
    ([None]) and the empty ones do not reach [process_command], and the
    loop runs as if they had not been heard. *)
Theorem silence_is_skipped (w : World) (self : Self) (heard : list (option string)) :
  forall s : State,
    VirtualAssistant.run_loop w self heard s
    = VirtualAssistant.run_loop w self (heard_commands heard) s.
Proof.
  induction heard as [| [c |] rest IH]; intros s; cbn [VirtualAssistant.run_loop heard_commands
                                                       List.filter].
  - reflexivity.
  - destruct (PyStr.truthy c) eqn:Hc; [| apply IH].
    cbn [VirtualAssistant.run_loop]. rewrite Hc. unfold bind.
    destruct (VirtualAssistant.process_command w self (VStr c) s) as [[[|] | e] s1];
      [apply IH | reflexivity | reflexivity].
  - apply IH.
Qed.

Lemma dispatch_farewell (w : World) (self : Self) (command : string) (s : State) :
  PyStr.any_char dangerous command = false ->
  farewell command = true ->
  exists s', dispatch w self command s = (Ret false, s').
Proof.
  intros Hd Hf. unfold dispatch. rewrite Hd, Hf. unfold bind at 1.
  rewrite update_conversation_history_spec. eexists. reflexivity.
Qed.

(** X14. The farewell ends the loop: whatever is heard after an accepted
    farewell plays no part in the run, and a loop that hears the
    farewell first stops there. *)
Theorem farewell_ends_loop (w : World) (self : Self) (raw : string)
  (before after : list (option string)) :
  farewell (normalize raw) = true ->
  ~ contains_disallowed (normalize raw) ->
  forall s : State,
    VirtualAssistant.run_loop w self (before ++ Some raw :: after) s
    = VirtualAssistant.run_loop w self (before ++ [Some raw]) s
    /\ fst (VirtualAssistant.run_loop w self (Some raw :: after) s) = Ret VirtualAssistant.Stopped.
Proof.
  intros Hf Hd.
  assert (Hne : raw <> EmptyString) by (intros ->; discriminate Hf).
  assert (Hstop : forall rest s, exists s',
             VirtualAssistant.run_loop w self (Some raw :: rest) s
             = (Ret VirtualAssistant.Stopped, s')
             /\ VirtualAssistant.run_loop w self [Some raw] s = (Ret VirtualAssistant.Stopped, s')).
  { intros rest s. cbn [VirtualAssistant.run_loop].
    destruct raw as [| a r]; [congruence |]. cbn [PyStr.truthy]. unfold bind.
    rewrite process_command_str by discriminate.
    destruct (dispatch_farewell w self (normalize (String a r)) s) as (s' & ->);
      [not_dangerous Hd | exact Hf |].
    exists s'. split; reflexivity. }
  intros s. split.
  - revert s. induction before as [| [c |] rest IH]; intros s.
    + cbn [app]. destruct (Hstop after s) as (s' & -> & ->). reflexivity.
    + cbn [app VirtualAssistant.run_loop]. destruct (PyStr.truthy c); [| apply IH].
      unfold bind.
      destruct (VirtualAssistant.process_command w self (VStr c) s) as [[[|] | e] s1];
        [apply IH | reflexivity | reflexivity].
    + cbn [app VirtualAssistant.run_loop]. apply IH.
  - destruct (Hstop after s) as (s' & -> & _). reflexivity.
Qed.

Lemma farewell_ends_loop_witness :
  VirtualAssistant.run_loop linux_world full_self
    [Some "hello"; None; Some "Bye for now"; Some "confirm shutdown"] init_state
  = VirtualAssistant.run_loop linux_world full_self
      [Some "hello"; None; Some "Bye for now"] init_state.
Proof.
  assert (Hd : ~ contains_disallowed (normalize "Bye for now")).
  { apply not_disallowed_by_computation. vm_compute. reflexivity. }
  exact (proj1 (farewell_ends_loop linux_world full_self "Bye for now" [Some "hello"; None]
                  [Some "confirm shutdown"] eq_refl Hd init_state)).
Defined.

(** X15. [check_dependencies] lists as missing exactly the modules,
    among the six it requires, that cannot be imported, in the order it
    tries them; [transformers] is never among them and is listed as
    optional exactly when it cannot be imported. *)
Theorem check_dependencies_lists_missing (importable : string -> bool) :
  fst (VirtualAssistant.check_dependencies importable)
  = List.filter (fun name => negb (importable name)) required_modules
  /\ snd (VirtualAssistant.check_dependencies importable)
     = List.filter (fun name => negb (importable name)) ["transformers"]
  /\ ~ In "transformers" (fst (VirtualAssistant.check_dependencies importable)).
Proof.
  assert (H1 : fst (VirtualAssistant.check_dependencies importable)
               = List.filter (fun name => negb (importable name)) required_modules).
  { unfold VirtualAssistant.check_dependencies, VirtualAssistant.try_import, required_modules.
    cbn [fst List.filter].
    destruct (importable "pyttsx3"), (importable "speech_recognition"),
      (importable "pywhatkit"), (importable "pyautogui"), (importable "instaloader"),
      (importable "wikipedia"); reflexivity. }
  split; [exact H1 |]. split.
  - unfold VirtualAssistant.check_dependencies, VirtualAssistant.try_import.
    cbn [snd List.filter]. destruct (importable "transformers"); reflexivity.
  - rewrite H1. intros Hin. apply filter_In in Hin as [Hin _].
    unfold required_modules in Hin. cbn in Hin.
    repeat destruct Hin as [Hin | Hin]; try discriminate Hin. exact Hin.
Qed.

Lemma get_installed_apps_empty_cache (w : World) (s : State) :
  app_cache s = ∅ ->
  PlatformUtils.get_installed_apps w s = (Raise (NameError "time"), s).
Proof.
  intros H. unfold PlatformUtils.get_installed_apps, bind, get.
  destruct (decide (app_cache s = ∅)) as [_ | Hne]; [| contradiction].
  rewrite scan_raises_at_clock. reflexivity.
Qed.

(** X16. [get_installed_apps] on an empty cache raises the [NameError]
    of the scan and returns nothing; on a cache that holds entries it
    returns their names, each once, without a scan and without touching
    the state. *)
Theorem get_installed_apps_cases (w : World) (s : State) :
  (app_cache s = ∅ ->
   PlatformUtils.get_installed_apps w s = (Raise (NameError "time"), s))
  /\ (app_cache s <> ∅ ->
      exists names,
        PlatformUtils.get_installed_apps w s = (Ret names, s)
        /\ NoDup names
        /\ forall name, In name names <-> is_Some (app_cache s !! name)).
Proof.
  split; [apply get_installed_apps_empty_cache |].
  intros Hne. unfold PlatformUtils.get_installed_apps, bind, get, ret.
  destruct (decide (app_cache s = ∅)) as [He | _]; [contradiction |].
  eexists. split; [reflexivity |]. split.
  - apply (NoDup_fst_map_to_list (app_cache s)).
  - intros name. rewrite <- list_elem_of_In, list_elem_of_fmap. split.
    + intros ([k v] & -> & Hin). apply elem_of_map_to_list in Hin. cbn. eauto.
    + intros [v Hv]. exists (name, v). split; [reflexivity |].
      now apply elem_of_map_to_list.
Qed.

(** X17. The constructor never returns an assistant: [__init__] makes a
    [PlatformUtils] with an empty cache and asks it for the installed
    applications, and the scan that follows raises [NameError] for its
    missing [time]; the history is not yet set up when it does. *)
Theorem init_never_returns (w : World) (importable : string -> bool)
  (env_weather_key env_news_key : option string) (s : State) :
  exists s',
    VirtualAssistant.__init__ w importable env_weather_key env_news_key s
    = (Raise (NameError "time"), s')
    /\ app_cache s' = ∅
    /\ conversation_history s' = conversation_history s.
Proof.
  unfold VirtualAssistant.__init__.
  destruct (VirtualAssistant.check_dependencies importable) as [missing optional].
  assert (Hprints : forall (m : M State unit),
             (exists evs, forall s0, m s0 = (Ret tt, set_trace (trace s0 ++ evs) s0)) ->
             forall s0, exists s1,
               (m >> modify (set_app_cache ∅) >>
                let* app_paths := PlatformUtils.get_installed_apps w in
                modify (set_history []) >> modify (set_analyzer NotLoaded) >>
                ret {| missing_deps := missing; optional_missing := optional;
                       config_name := "Friday"; weather_api_key := env_weather_key;
                       news_api_key := env_news_key |}) s0
               = (Raise (NameError "time"), s1)
               /\ app_cache s1 = ∅ /\ conversation_history s1 = conversation_history s0).
  { intros m (evs & Hm) s0. unfold bind at 1. rewrite Hm.
    unfold bind at 1. unfold modify at 1. unfold bind at 1.
    rewrite get_installed_apps_empty_cache by reflexivity.
    eexists. split; [reflexivity |]. split; reflexivity. }
  assert (Hret : exists evs : list event,
             forall s0, ret tt s0 = (Ret tt, set_trace (trace s0 ++ evs) s0)).
  { exists []. intros s0. rewrite app_nil_r. destruct s0; reflexivity. }
  assert (Hseq : forall (m1 m2 : M State unit),
             (exists evs, forall s0, m1 s0 = (Ret tt, set_trace (trace s0 ++ evs) s0)) ->
             (exists evs, forall s0, m2 s0 = (Ret tt, set_trace (trace s0 ++ evs) s0)) ->
             exists evs, forall s0, (m1 >> m2) s0 = (Ret tt, set_trace (trace s0 ++ evs) s0)).
  { intros m1 m2 (e1 & H1) (e2 & H2). exists (e1 ++ e2). intros s0.
    unfold bind. rewrite H1, H2. cbn. rewrite <- app_assoc. reflexivity. }
  assert (Hemit : forall e, exists evs : list event,
             forall s0, emit e s0 = (Ret tt, set_trace (trace s0 ++ evs) s0)).
  { intros e. exists [e]. intros s0. reflexivity. }
  assert (Hpre : exists evs, forall s0,
            ((match missing with
              | [] => ret tt
              | _ =>
                  emit (Print (String.append "WARNING: Missing required dependencies: "
                                 (PyStr.join ", " missing))) >>
                  emit (Print "Some features will not be available.") >>
                  emit (Print (String.append "Install with: pip install "
                                 (PyStr.join " " missing)))
              end) >>
             (match optional with
              | [] => ret tt
              | _ =>
                  emit (Print (String.append "NOTE: Missing optional dependencies: "
                                 (PyStr.join ", " optional))) >>
                  emit (Print "Advanced features will be limited.")
              end)) s0 = (Ret tt, set_trace (trace s0 ++ evs) s0)).
  { apply Hseq; [destruct missing | destruct optional]; auto. }
  destruct (Hprints _ Hpre s) as (s1 & Hrun & Hc & Hh).
  exists s1. split; [| split; assumption].
  rewrite <- Hrun. unfold bind. destruct missing, optional; reflexivity.
Qed.

(* ===================================================================== *)
(** ** Further properties: the shutdown method *)
(* ===================================================================== *)

Lemma check_keywords_type_error (fname : string) (bound : bindings) (rest : list param)
  (kw : bindings) :
  match check_keywords fname bound rest kw with
  | Ret _ => True
  | Raise (TypeError _) => True
  | Raise _ => False
  end.
Proof.
  induction kw as [| [k v] kw IH]; cbn; [exact I |].
  destruct (assoc k bound); [exact I |].
  destruct (assoc k rest); [exact IH | exact I].
Qed.

(** X18. [shutdown] cannot be called on an instance with keyword
    arguments only: unless a keyword is named [self], every such call
    raises [TypeError] before the body runs and leaves the state as it
    was, so neither the prompt is returned nor the system command run. *)
Theorem shutdown_needs_self (w : World) (receiver : pyval) (kw : bindings) (s : State) :
  assoc "self" kw = None ->
  exists msg,
    SystemManager.shutdown w receiver [] kw s = (Raise (TypeError msg), s).
Proof.
  intros Hself.
  unfold SystemManager.shutdown, call_method, SystemManager.shutdown_kind, bind_call,
    SystemManager.shutdown_params.
  cbn [bind_positional].
  match goal with
  | |- context [check_keywords ?f ?b ?r kw] =>
      pose proof (check_keywords_type_error f b r kw) as Hck;
      destruct (check_keywords f b r kw) as [[] | e]
  end.
  - cbn [fill_rest]. rewrite Hself. eexists. reflexivity.
  - destruct e; try contradiction. eexists. reflexivity.
Qed.

Lemma shutdown_needs_self_witness :
  exists msg,
    SystemManager.shutdown linux_world (VObj "SystemManager") []
      [("confirm", VBool true); ("require_phrase", VBool false)] init_state
    = (Raise (TypeError msg), init_state).
Proof.
  apply (shutdown_needs_self linux_world (VObj "SystemManager")
           [("confirm", VBool true); ("require_phrase", VBool false)] init_state).
  reflexivity.
Defined.

(** X19. The two-step guard of [shutdown], once something fills [self]:
    called with [confirm] alone, it runs the system's shutdown command
    exactly when [confirm] is truthy; otherwise it returns the request
    to confirm and runs nothing. *)
Theorem shutdown_guard (w : World) (receiver obj confirm : pyval) (s : State) :
  (py_truthy confirm = false ->
   SystemManager.shutdown w receiver [obj] [("confirm", confirm)] s
   = (Ret confirmation_prompt, s))
  /\ (py_truthy confirm = true ->
      exists cmd answer,
        SystemManager.shutdown w receiver [obj] [("confirm", confirm)] s
        = (Ret answer, set_trace (trace s ++ [OsSystem cmd]) s)
        /\ cmd = (if PlatformUtils.is_windows w then "shutdown /s /t 60"
                  else "sudo shutdown -h +1")).
Proof.
  pose (b := [("self", obj); ("confirm", confirm); ("require_phrase", VBool true)]).
  assert (Heq : SystemManager.shutdown w receiver [obj] [("confirm", confirm)] s
                = SystemManager.shutdown_body w b s) by reflexivity.
  assert (Hr : arg b "require_phrase" = VBool true) by reflexivity.
  assert (Hc : arg b "confirm" = confirm) by reflexivity.
  rewrite Heq. unfold SystemManager.shutdown_body, PlatformUtils.is_windows. rewrite Hr, Hc.
  change (py_truthy (VBool true)) with true. cbn [andb].
  split; intros ->; cbn [negb]; [reflexivity |].
  destruct (String.eqb (platform_system w) "Windows"); eexists; eexists;
    (split; [reflexivity | reflexivity]).
Qed.

(* ===================================================================== *)
(** ** Further properties: voices *)
(* ===================================================================== *)



Lemma map_result_ok {A B} (f : A -> result B) (g : A -> B) (l : list A) :
  (forall x, In x l -> f x = Ret (g x)) -> map_result f l = Ret (map g l).
Proof.
  induction l as [| x l IH]; intros H; cbn; [reflexivity |].
  rewrite (H x) by (left; reflexivity).
  rewrite IH by (intros y Hy; apply H; right; exact Hy). reflexivity.
Qed.

Lemma map_result_raises {A B} (f : A -> result B) (l : list A) (x : A) :
  In x l -> (exists e, f x = Raise e) -> exists e, map_result f l = Raise e.
Proof.
  induction l as [| y l IH]; intros Hin Hx; [contradiction |].
  cbn. destruct (f y) as [b | e] eqn:Ey; [| eauto].
  destruct Hin as [-> | Hin].
  - destruct Hx as (e & He). congruence.
  - destruct (IH Hin Hx) as (e & ->). eauto.
Qed.

Lemma index_short {A} (l : list A) (i : nat) :
  length l <= i -> exists e, index l i = Raise e.
Proof.
  intros H. unfold index. rewrite (proj2 (nth_error_None l i) H). eauto.
Qed.

(** X21. Every identifier of the macOS catalog is the fixed prefix
    followed by a lower-case name, whether it comes from the listing or
    is the fallback. *)
Theorem mac_voices_have_prefix (w : World) :
  Forall (fun voice => exists name, voice = String.append mac_voice_prefix (PyStr.lower name))
    (PlatformUtils._get_mac_voices w).
Proof.
  assert (Hfallback : Forall
            (fun voice => exists name, voice = String.append mac_voice_prefix (PyStr.lower name))
            ["com.apple.speech.synthesis.voice.samantha"]).
  { constructor; [exists "samantha"; reflexivity | constructor]. }
  unfold PlatformUtils._get_mac_voices.
  destruct (say_stdout w) as [stdout |]; [| exact Hfallback].
  destruct (map_result _ _) as [voices | e]; [| exact Hfallback].
  apply Forall_forall. intros voice Hin. apply list_elem_of_In in Hin.
  apply in_map_iff in Hin as (name & <- & _).
  exists name. reflexivity.
Qed.

(** X22. One short line loses every voice: when a non-empty line after
    the header of the [espeak] listing has fewer than three fields, the
    Linux enumeration drops the voices of all the other lines too and
    returns the one fallback voice. *)
Theorem linux_short_line_discards_catalog (w : World) (stdout line : string) :
  espeak_stdout w = Some stdout ->
  In line (espeak_lines stdout) ->
  length (PyStr.split_ws line) < 3 ->
  PlatformUtils._get_linux_voices w = ["default"].
Proof.
  intros Hout Hin Hshort. unfold PlatformUtils._get_linux_voices. rewrite Hout.
  fold (espeak_lines stdout).
  destruct (map_result_raises (fun l => index (PyStr.split_ws l) 2) (espeak_lines stdout) line Hin)
    as (e & ->); [apply index_short; lia | reflexivity].
Qed.

Lemma linux_short_line_discards_catalog_witness :
  PlatformUtils._get_linux_voices
    {| platform_system := "Linux"; path_home := "/home/user";
       datetime_now := datetime_now linux_world; time_time := time_time linux_world;
       fs_root := fun _ => None; winreg_voice_tokens := None; say_stdout := None;
       espeak_stdout :=
         Some (String.append "Pty Language Age/Gender VoiceName File"
                (String PyStr.newline
                   (String.append " 5 af M afrikaans other/af"
                      (String PyStr.newline "broken line"))));
       weather_http := weather_http linux_world; news_http := news_http linux_world;
       location_http := location_http linux_world;
       wikipedia_summary := wikipedia_summary linux_world;
       screenshot_saved := screenshot_saved linux_world; pipeline_loads := false;
       sentiment_label := fun _ => None; random_choice := fun i => i;
       microphone_ok := true; now_hour := 9; now_strftime := "09:00 AM" |}
  = ["default"].
Proof.
  eapply (linux_short_line_discards_catalog _ _ "broken line").
  - reflexivity.
  - vm_compute. right. left. reflexivity.
  - vm_compute. lia.
Defined.

(** X23. A well-formed listing is read in full: when every non-empty
    line after the header has at least three fields, the Linux catalog
    is the third field of each of these lines, in their order. *)
Theorem linux_voices_third_field (w : World) (stdout : string) :
  espeak_stdout w = Some stdout ->
  Forall (fun line => 3 <= length (PyStr.split_ws line)) (espeak_lines stdout) ->
  PlatformUtils._get_linux_voices w
  = map (fun line => nth 2 (PyStr.split_ws line) EmptyString) (espeak_lines stdout).
Proof.
  intros Hout Hall. unfold PlatformUtils._get_linux_voices. rewrite Hout.
  fold (espeak_lines stdout).
  rewrite (map_result_ok _ (fun line => nth 2 (PyStr.split_ws line) EmptyString)); [reflexivity |].
  intros line Hin. rewrite Forall_forall in Hall.
  specialize (Hall line (proj2 (list_elem_of_In _ _) Hin)).
  unfold index. destruct (nth_error (PyStr.split_ws line) 2) as [v |] eqn:E.
  - now rewrite (nth_error_nth _ _ EmptyString E).
  - apply nth_error_None in E. lia.
Qed.

Lemma linux_voices_third_field_witness :
  PlatformUtils._get_linux_voices
    {| platform_system := "Linux"; path_home := "/home/user";
       datetime_now := datetime_now linux_world; time_time := time_time linux_world;
       fs_root := fun _ => None; winreg_voice_tokens := None; say_stdout := None;
       espeak_stdout :=
         Some (String.append "Pty Language Age/Gender VoiceName File"
                (String PyStr.newline
                   (String.append " 5 af M afrikaans other/af"
                      (String PyStr.newline
                         (String.append " 5 en M default default" (String PyStr.newline ""))))));
       weather_http := weather_http linux_world; news_http := news_http linux_world;
       location_http := location_http linux_world;
       wikipedia_summary := wikipedia_summary linux_world;
       screenshot_saved := screenshot_saved linux_world; pipeline_loads := false;
       sentiment_label := fun _ => None; random_choice := fun i => i;
       microphone_ok := true; now_hour := 9; now_strftime := "09:00 AM" |}
  = ["M"; "M"].
Proof.
  erewrite linux_voices_third_field; [| reflexivity |].
  - vm_compute. reflexivity.
  - vm_compute. repeat constructor.
Defined.

(* ===================================================================== *)
(** ** Further properties: the application index *)
(* ===================================================================== *)

(** A property of the index that adding an absent lower-case name keeps
    is kept by every scanner. *)
Section ScanInvariant.
Variable P : gmap string string -> Prop.
Hypothesis P_add : forall name path paths,
  P paths -> P (PlatformUtils.add_if_absent (PyStr.lower name) path paths).

Lemma fold_left_inv {A} (f : gmap string string -> A -> gmap string string) (l : list A) :
  (forall paths x, P paths -> P (f paths x)) ->
  forall paths, P paths -> P (fold_left f l paths).
Proof.
  intros Hf. induction l as [| x l IH]; intros paths Hp; cbn; [exact Hp |].
  apply IH, Hf, Hp.
Qed.

Lemma scan_platform_directory_inv (w : World) (dirpath : string) (directory : option node)
  (paths : gmap string string) :
  P paths -> P (PlatformUtils.scan_platform_directory w dirpath directory paths).
Proof.
  unfold PlatformUtils.scan_platform_directory, PlatformUtils._scan_windows_directory,
    PlatformUtils._scan_mac_directory, PlatformUtils._scan_linux_directory.
  destruct (PlatformUtils.is_windows w); [| destruct (PlatformUtils.is_mac w)].
  - apply fold_left_inv. intros p [path e] Hp.
    destruct (negb (is_file e)); [exact Hp | now apply P_add].
  - apply fold_left_inv. intros p [path e] Hp.
    destruct (negb (is_dir e)); [exact Hp | now apply P_add].
  - destruct (PlatformUtils.iterdir directory); [| trivial].
    apply fold_left_inv. intros p [name [] | name r es] Hp;
      first [exact Hp | now apply P_add].
Qed.

Lemma scan_node_inv (w : World) (max_depth : Z) (n : node) :
  forall (dirpath : string) (paths : gmap string string) (depth : Z),
    P paths -> P (PlatformUtils.scan_node w dirpath n paths depth max_depth).
Proof.
  induction n as [name x | name r entries IH] using node_nested_ind;
    intros dirpath paths depth Hp.
  - cbn. destruct (depth >? max_depth)%Z; [exact Hp |].
    destruct (depth <? max_depth)%Z; now apply scan_platform_directory_inv.
  - cbn [PlatformUtils.scan_node]. destruct (depth >? max_depth)%Z; [exact Hp |].
    pose proof (scan_platform_directory_inv w dirpath (Some (Dir name r entries)) paths Hp) as Hp1.
    revert Hp1.
    generalize (PlatformUtils.scan_platform_directory w dirpath (Some (Dir name r entries)) paths).
    intros paths1 Hp1.
    destruct (depth <? max_depth)%Z; [| exact Hp1].
    destruct r; [| exact Hp1].
    revert paths1 Hp1. induction IH as [| e es He _ IHes]; intros paths1 Hp1; [exact Hp1 |].
    apply IHes. destruct (is_dir e); [now apply He | exact Hp1].
Qed.

Lemma _scan_directory_inv (w : World) (dirpath : string) (directory : option node)
  (paths : gmap string string) (depth max_depth : Z) :
  P paths -> P (PlatformUtils._scan_directory w dirpath directory paths depth max_depth).
Proof.
  unfold PlatformUtils._scan_directory.
  destruct directory; [apply scan_node_inv | trivial].
Qed.

End ScanInvariant.

(** X24. First match wins: scanning a directory, to any depth and on
    any platform, neither removes an entry of the index nor changes the
    path recorded for a name. *)
Theorem scan_keeps_entries (w : World) (dirpath : string) (directory : option node)
  (paths : gmap string string) (depth max_depth : Z) (name path : string) :
  paths !! name = Some path ->
  PlatformUtils._scan_directory w dirpath directory paths depth max_depth !! name = Some path.
Proof.
  intros H.
  apply (lookup_weaken _ _ _ _ H), _scan_directory_mono.
Qed.

Lemma scan_keeps_entries_witness :
  PlatformUtils._scan_directory linux_world "/opt" (fs_root linux_world "/opt")
    (<["gedit" := "/usr/bin/gedit"]> ∅) 0 3 !! "gedit"
  = Some "/usr/bin/gedit".
Proof.
  apply (scan_keeps_entries linux_world "/opt" (fs_root linux_world "/opt")
           (<["gedit" := "/usr/bin/gedit"]> ∅) 0 3 "gedit" "/usr/bin/gedit").
  reflexivity.
Defined.

(** X25. The names of the index are lower-case: if every name of the
    index is its own lower-case form before a directory is scanned, so
    is every name after. *)
Theorem scan_keeps_names_lower (w : World) (dirpath : string) (directory : option node)
  (paths : gmap string string) (depth max_depth : Z) :
  keys_lower paths ->
  keys_lower (PlatformUtils._scan_directory w dirpath directory paths depth max_depth).
Proof.
  apply _scan_directory_inv. clear. intros name path paths Hp k v.
  unfold PlatformUtils.add_if_absent. destruct (paths !! PyStr.lower name) eqn:E; [apply Hp |].
  rewrite lookup_insert. destruct (decide (PyStr.lower name = k)) as [<- | _].
  - intros _. apply lower_idem.
  - apply Hp.
Qed.

Lemma scan_keeps_names_lower_witness :
  keys_lower (PlatformUtils._scan_directory linux_world "/usr/bin"
                (fs_root linux_world "/usr/bin") ∅ 0 3).
Proof.
  apply (scan_keeps_names_lower linux_world "/usr/bin" (fs_root linux_world "/usr/bin") ∅ 0 3).
  intros k v H. rewrite lookup_empty in H. discriminate H.
Defined.

(** X26. What the Linux scanner adds for one directory: an entry of the
    index after [_scan_linux_directory] was there before, or is the
    lower-cased stem of an executable regular file of that directory
    with the path of that file; directories and files without the
    execute permission add nothing. *)
Theorem linux_scan_adds_executables (w : World) (dirpath name : string) (readable : bool)
  (entries : list node) (paths : gmap string string) (app_name path : string) :
  PlatformUtils._scan_linux_directory w dirpath (Some (Dir name readable entries)) paths
    !! app_name = Some path ->
  paths !! app_name = Some path
  \/ exists file,
       In (File file true) entries
       /\ app_name = PyStr.lower (PlatformUtils.stem file)
       /\ path = PlatformUtils.joinpath w dirpath file.
Proof.
  unfold PlatformUtils._scan_linux_directory. cbn [PlatformUtils.iterdir].
  destruct readable; [| now left].
  assert (Hgen : forall l paths0,
             (forall e, In e l -> In e entries) ->
             (forall k v, paths0 !! k = Some v ->
                paths !! k = Some v
                \/ exists file, In (File file true) entries
                     /\ k = PyStr.lower (PlatformUtils.stem file)
                     /\ v = PlatformUtils.joinpath w dirpath file) ->
             forall k v,
               fold_left
                 (fun paths1 e =>
                    match e with
                    | File f true =>
                        PlatformUtils.add_if_absent (PyStr.lower (PlatformUtils.stem f))
                          (PlatformUtils.joinpath w dirpath f) paths1
                    | _ => paths1
                    end) l paths0 !! k = Some v ->
               paths !! k = Some v
               \/ exists file, In (File file true) entries
                    /\ k = PyStr.lower (PlatformUtils.stem file)
                    /\ v = PlatformUtils.joinpath w dirpath file).
  { induction l as [| e l IH]; intros paths0 Hsub Hinv k v; cbn [fold_left]; [apply Hinv |].
    apply IH; [intros e' He'; apply Hsub; now right |].
    intros k' v'. destruct e as [f [] | d r es]; try apply Hinv.
    unfold PlatformUtils.add_if_absent.
    destruct (paths0 !! PyStr.lower (PlatformUtils.stem f)) eqn:E; [apply Hinv |].
    rewrite lookup_insert.
    destruct (decide (PyStr.lower (PlatformUtils.stem f) = k')) as [<- | _]; [| apply Hinv].
    intros Hv. injection Hv as <-. right. exists f.
    split; [apply Hsub; now left | split; reflexivity]. }
  apply Hgen; [auto | intros k v Hk; now left].
Qed.

Lemma linux_scan_adds_executables_witness :
  PlatformUtils._scan_linux_directory linux_world "/usr/bin"
    (Some (Dir "bin" true [File "Gedit.bin" true; File "notes.txt" false])) ∅ !! "gedit"
  = Some "/usr/bin/Gedit.bin"
  /\ exists file,
       In (File file true) [File "Gedit.bin" true; File "notes.txt" false]
       /\ "gedit" = PyStr.lower (PlatformUtils.stem file)
       /\ "/usr/bin/Gedit.bin" = PlatformUtils.joinpath linux_world "/usr/bin" file.
Proof.
  assert (H : PlatformUtils._scan_linux_directory linux_world "/usr/bin"
                (Some (Dir "bin" true [File "Gedit.bin" true; File "notes.txt" false])) ∅
                !! "gedit" = Some "/usr/bin/Gedit.bin") by (vm_compute; reflexivity).
  split; [exact H |].
  destruct (linux_scan_adds_executables linux_world "/usr/bin" "bin" true
              [File "Gedit.bin" true; File "notes.txt" false] ∅ "gedit" "/usr/bin/Gedit.bin" H)
    as [H0 | Hfile]; [| exact Hfile].
  rewrite lookup_empty in H0. discriminate H0.
Defined.

(** X27. [find_application] looks the name up in lower case.  A name in
    the cache is answered from the cache with no scan and no change of
    state; a name that is not makes the scan run, and the scan raises
    [NameError], so a miss is never answered with [None]. *)
Theorem find_application_cases (w : World) (app_name : string) (s : State) :
  PlatformUtils.find_application w app_name s
  = PlatformUtils.find_application w (PyStr.lower app_name) s
  /\ (forall path, app_cache s !! PyStr.lower app_name = Some path ->
        PlatformUtils.find_application w app_name s = (Ret (Some path), s))
  /\ (app_cache s !! PyStr.lower app_name = None ->
      PlatformUtils.find_application w app_name s = (Raise (NameError "time"), s)).
Proof.
  unfold PlatformUtils.find_application. rewrite lower_idem. unfold bind, get.
  split; [reflexivity |]. split.
  - intros path ->. reflexivity.
  - intros ->. rewrite scan_raises_at_clock. reflexivity.
Qed.

(** X28. With [time] bound in the module's namespace, the body of
    [scan_for_applications] returns, for every budget and every clock,
    an index that is part of the index of the scan no deadline stops: a
    name it holds has the path the full scan gives it.  The index is
    also what the cache holds afterwards. *)
Theorem scan_within_full_when_time_bound (globals : list string) (w : World)
  (max_depth : Z) (timeout : Q) (s : State) :
  str_mem "time" globals = true ->
  exists paths s',
    PlatformUtils.scan_for_applications_in globals w max_depth timeout s = (Ret paths, s')
    /\ app_cache s' = paths
    /\ forall name path,
         paths !! name = Some path -> full_scan w max_depth !! name = Some path.
Proof.
  intros Htime.
  destruct (scan_with_time_within_full globals w max_depth timeout s Htime)
    as (paths & s' & Hrun & Hc & Hsub).
  exists paths, s'. split; [exact Hrun |]. split; [exact Hc |].
  intros name path H. exact (lookup_weaken _ _ _ _ H Hsub).
Qed.

Lemma scan_within_full_when_time_bound_witness :
  exists paths s',
    PlatformUtils.scan_for_applications_in ("time" :: PlatformUtils.module_globals)
      linux_world 3 0 init_state = (Ret paths, s')
    /\ app_cache s' = paths.
Proof.
  destruct (scan_within_full_when_time_bound ("time" :: PlatformUtils.module_globals)
              linux_world 3 0 init_state eq_refl) as (paths & s' & Hrun & Hc & _).
  exists paths, s'. split; assumption.
Defined.

(* ===================================================================== *)
(** ** Further properties: the helpers of the setup wizard *)
(* ===================================================================== *)

Lemma length_append (a b : string) :
  String.length (String.append a b) = String.length a + String.length b.
Proof.
  induction a as [| c a IH]; [reflexivity |].
  rewrite append_cons. cbn [String.length]. now rewrite IH.
Qed.

Lemma length_repeat_char (c : ascii) (n : nat) : String.length (PyStr.repeat_char c n) = n.
Proof. induction n as [| n IH]; cbn; [reflexivity | now rewrite IH]. Qed.

Lemma all_char_repeat (c : ascii) (n : nat) : all_char c (PyStr.repeat_char c n) = true.
Proof. induction n as [| n IH]; cbn; [reflexivity | now rewrite Ascii.eqb_refl, IH]. Qed.

Lemma length_take (n : nat) (s : string) :
  String.length (PyStr.take n s) = Nat.min n (String.length s).
Proof.
  revert s. induction n as [| n IH]; intros [| c s]; cbn; try reflexivity.
  now rewrite IH.
Qed.

Lemma length_skip (n : nat) (s : string) :
  String.length (PyStr.skip n s) = String.length s - n.
Proof.
  revert s. induction n as [| n IH]; intros [| c s]; cbn [PyStr.skip String.length].
  - reflexivity.
  - now rewrite Nat.sub_0_r.
  - reflexivity.
  - rewrite IH. reflexivity.
Qed.

(** X29. [_mask_key] shows a key that is set as a text of the same
    length: all stars when the key has at most eight characters,
    otherwise the first four and the last four characters of the key
    around stars, so that no more than eight characters are readable. *)
Theorem mask_key_keeps_length (k : string) :
  k <> EmptyString ->
  String.length (SetupWizard._mask_key (Some k)) = String.length k
  /\ (String.length k <= 8 -> all_char "*" (SetupWizard._mask_key (Some k)) = true)
  /\ (8 < String.length k ->
      exists stars,
        SetupWizard._mask_key (Some k)
        = String.append (PyStr.take 4 k)
            (String.append stars (PyStr.skip (String.length k - 4) k))
        /\ all_char "*" stars = true
        /\ String.length stars = String.length k - 8).
Proof.
  intros Hne. unfold SetupWizard._mask_key.
  destruct k as [| c k]; [congruence |]. cbn [PyStr.truthy negb].
  set (key := String c k).
  destruct (Nat.leb_spec (String.length key) 8) as [Hle | Hgt].
  - split; [apply length_repeat_char |].
    split; [intros _; apply all_char_repeat | intros H; exfalso; lia].
  - split; [| split; [intros H; exfalso; lia |]].
    + rewrite !length_append, length_take, length_repeat_char, length_skip. lia.
    + intros _. exists (PyStr.repeat_char "*" (String.length key - 8)).
      split; [reflexivity |]. split; [apply all_char_repeat | apply length_repeat_char].
Qed.

Lemma mask_key_keeps_length_witness :
  SetupWizard._mask_key (Some "sk-1234567890abcd") = "sk-1*********abcd"
  /\ String.length (SetupWizard._mask_key (Some "sk-1234567890abcd")) = 17.
Proof.
  split; [reflexivity |].
  exact (proj1 (mask_key_keeps_length "sk-1234567890abcd" ltac:(discriminate))).
Defined.

(** X30. [_test_api_keys] answers "skip" exactly when neither key is
    set, and "pass" exactly when a key is set and every key that is set
    has at least ten characters; in every other case it answers "fail". *)
Theorem test_api_keys_cases (weather_api_key news_api_key : option string) :
  let answer := SetupWizard._test_api_keys weather_api_key news_api_key in
  (answer = "skip" <-> key_set weather_api_key = false /\ key_set news_api_key = false)
  /\ (answer = "pass" <->
      (key_set weather_api_key = true \/ key_set news_api_key = true)
      /\ (key_set weather_api_key = true -> 10 <= SetupWizard.key_length weather_api_key)
      /\ (key_set news_api_key = true -> 10 <= SetupWizard.key_length news_api_key))
  /\ (answer = "skip" \/ answer = "pass" \/ answer = "fail").
Proof.
  unfold SetupWizard._test_api_keys, key_set. cbn zeta.
  destruct (SetupWizard.unset weather_api_key), (SetupWizard.unset news_api_key);
    cbn [andb orb negb];
    repeat match goal with
           | |- context [(?a <? ?b)%nat] => destruct (Nat.ltb_spec a b)
           end; cbn [andb orb negb];
    (split; [| split]);
    try (split; intros; try discriminate; intuition (try discriminate; try lia));
    auto.
Qed.
